(** * Training callbacks of PaddleTS: dispatch, early stopping, history

    A shallow embedding of [paddlets/models/common/callbacks/callbacks.py].

    - Python [float] is IEEE 754 binary64, which is what Rocq's primitive
      [float] is: arithmetic and comparisons are the kernel's, so the model
      rounds, overflows and treats NaN exactly as the interpreter does.
    - Python [int] (epoch numbers, the wait counter, patience) is [Z].
    - A log record ([Dict[str, Any]]) is a [gmap string pyval].
    - A hook mutates its own object and the trainer it is bound to, and may
      raise.  It is modelled as a function from the state before to the state
      after, paired with how the call ended ([Return] or [Raise e]): what was
      assigned before an exception stays assigned.
    - The text of the messages handed to the logger is not modelled; the
      exceptions that building it raises on the modelled values are. *)

From Stdlib Require Import ZArith QArith Floats Lia.
From stdpp Require Import base gmap strings list.

Set Warnings "-inexact-float".
Open Scope Z_scope.

(** ** Values, exceptions and log records *)

(** The values a log record holds in this model: [None] and floats.  A number
    that the trainer writes as an [int] (a batch size) is held as the float it
    is converted to as soon as it meets a float operand. *)
Inductive pyval : Type :=
  | PyNone
  | PyFloat (x : float).

Inductive exn : Type :=
  | KeyError (key : string)
  | TypeError
  | AttributeError
  | ZeroDivisionError
  | ValueError
  | OverflowError
  | MemoryError.

(** How a call ended. *)
Inductive completion : Type :=
  | Return
  | Raise (e : exn).

Abbreviation Logs := (gmap string pyval).

(** [logs.get(key)]: [None] when the key is absent. *)
Definition dict_get (logs : Logs) (key : string) : pyval :=
  match logs !! key with
  | Some v => v
  | None => PyNone
  end.

(** [logs[key]]: [KeyError(key)] when the key is absent. *)
Definition dict_getitem (logs : Logs) (key : string) : exn + pyval :=
  match logs !! key with
  | Some v => inr v
  | None => inl (KeyError key)
  end.

(** [self.attr] for an attribute that exists only once it has been assigned. *)
Definition getattr {A : Type} (attr : option A) : exn + A :=
  match attr with
  | Some v => inr v
  | None => inl AttributeError
  end.

(** An operand of float arithmetic: [None] is a [TypeError]. *)
Definition as_number (v : pyval) : exn + float :=
  match v with
  | PyFloat x => inr x
  | PyNone => inl TypeError
  end.

(** [a > b] on floats. *)
Definition float_gt (a b : float) : bool := (b <? a)%float.

(** [a / b] on floats: Python raises where IEEE returns an infinity or NaN. *)
Definition float_truediv (a b : float) : exn + float :=
  if (b =? 0)%float then inl ZeroDivisionError else inr (a / b)%float.

(** [int(x)]: truncation towards zero. *)
Definition int_of_float (x : float) : exn + Z :=
  match Prim2SF x with
  | S754_nan => inl ValueError
  | S754_infinity _ => inl OverflowError
  | S754_zero _ => inr 0
  | S754_finite s m e =>
    let a := if 0 <=? e then Z.pos m * 2 ^ e else Z.pos m / 2 ^ (- e) in
    inr (if s then - a else a)
  end.

(** [f"{v:.6f}"]: [None] has no such format. *)
Definition format_6f (v : pyval) : exn + unit :=
  match v with
  | PyFloat _ => inr tt
  | PyNone => inl TypeError
  end.

(** [datetime.timedelta(seconds=n)]: the day count is bounded. *)
Definition timedelta (seconds : Z) : exn + Z :=
  if Z.abs (seconds / 86400) <=? 999999999 then inr seconds else inl OverflowError.

(** Sequencing of steps that may raise. *)
Definition bind {A B : Type} (m : exn + A) (k : A -> exn + B) : exn + B :=
  match m with
  | inl e => inl e
  | inr a => k a
  end.

Notation "'let!' x ':=' m 'in' k" := (bind m (fun x => k))
  (at level 10, x name, m at level 100, k at level 200).

Definition completion_of {A : Type} (m : exn + A) : completion :=
  match m with
  | inl e => Raise e
  | inr _ => Return
  end.

(** The six lifecycle events, with the index the epoch and batch hooks take. *)
Inductive event : Type :=
  | TrainBegin
  | TrainEnd
  | EpochBegin (epoch : Z)
  | EpochEnd (epoch : Z)
  | BatchBegin (batch : Z)
  | BatchEnd (batch : Z).

(** ** The trainer, as far as the callbacks touch it *)

Module Trainer.

(** [Params] is what [_network.state_dict()] returns. *)
Record t (Params : Type) : Type := mk {
  _stop_training : bool;
  _best_epoch : Z;
  _best_cost : float;
  _network : Params;
  _max_epochs : Z
}.

Arguments mk {Params}.
Arguments _stop_training {Params}.
Arguments _best_epoch {Params}.
Arguments _best_cost {Params}.
Arguments _network {Params}.
Arguments _max_epochs {Params}.

End Trainer.

(** ** Callback: the base class *)

Module Callback.

(** An object with the six hooks, acting on the state [W] it can reach
    (itself and the trainer).  The hooks of this file read the record they
    are given and do not write to it. *)
Record t (W : Type) : Type := mk {
  on_epoch_begin : Z -> option Logs -> W -> W * completion;
  on_epoch_end : Z -> option Logs -> W -> W * completion;
  on_batch_begin : Z -> option Logs -> W -> W * completion;
  on_batch_end : Z -> option Logs -> W -> W * completion;
  on_train_begin : option Logs -> W -> W * completion;
  on_train_end : option Logs -> W -> W * completion
}.

Arguments mk {W}.
Arguments on_epoch_begin {W}.
Arguments on_epoch_end {W}.
Arguments on_batch_begin {W}.
Arguments on_batch_end {W}.
Arguments on_train_begin {W}.
Arguments on_train_end {W}.

(** [pass] *)
Definition pass {W : Type} (w : W) : W * completion := (w, Return).

(** The base class: every hook is [pass]. *)
Definition base {W : Type} : t W :=
  mk (fun _ _ => pass) (fun _ _ => pass) (fun _ _ => pass) (fun _ _ => pass)
     (fun _ => pass) (fun _ => pass).

(** The hook of [cb] that belongs to an event. *)
Definition hook {W : Type} (cb : t W) (ev : event) : option Logs -> W -> W * completion :=
  match ev with
  | TrainBegin => on_train_begin cb
  | TrainEnd => on_train_end cb
  | EpochBegin epoch => on_epoch_begin cb epoch
  | EpochEnd epoch => on_epoch_end cb epoch
  | BatchBegin batch => on_batch_begin cb batch
  | BatchEnd batch => on_batch_end cb batch
  end.

End Callback.

(** ** CallbackContainer *)

Module CallbackContainer.

Section Container.

Context {W : Type}.

Record t : Type := mk { _callbacks : list (Callback.t W) }.

Definition __init__ (callbacks : list (Callback.t W)) : t := mk callbacks.

Definition append (self : t) (callback : Callback.t W) : t :=
  mk (_callbacks self ++ [callback]).

(** [logs or {}]: an empty dict is replaced by an empty dict. *)
Definition logs_or_empty (logs : option Logs) : Logs :=
  match logs with
  | Some d => d
  | None => ∅
  end.

(** [for callback in self._callbacks: callback.hook(...)]: an exception
    leaves the loop and the method. *)
Fixpoint for_each (calls : list (W -> W * completion)) (w : W) : W * completion :=
  match calls with
  | [] => (w, Return)
  | call :: rest =>
    match call w with
    | (w', Return) => for_each rest w'
    | (w', Raise e) => (w', Raise e)
    end
  end.

Definition on_epoch_begin (self : t) (epoch : Z) (logs : option Logs) : W -> W * completion :=
  let logs := logs_or_empty logs in
  for_each (map (fun callback => Callback.on_epoch_begin callback epoch (Some logs))
                (_callbacks self)).

Definition on_epoch_end (self : t) (epoch : Z) (logs : option Logs) : W -> W * completion :=
  let logs := logs_or_empty logs in
  for_each (map (fun callback => Callback.on_epoch_end callback epoch (Some logs))
                (_callbacks self)).

Definition on_batch_begin (self : t) (batch : Z) (logs : option Logs) : W -> W * completion :=
  let logs := logs_or_empty logs in
  for_each (map (fun callback => Callback.on_batch_begin callback batch (Some logs))
                (_callbacks self)).

Definition on_batch_end (self : t) (batch : Z) (logs : option Logs) : W -> W * completion :=
  let logs := logs_or_empty logs in
  for_each (map (fun callback => Callback.on_batch_end callback batch (Some logs))
                (_callbacks self)).

Definition on_train_begin (self : t) (logs : option Logs) : W -> W * completion :=
  let logs := logs_or_empty logs in
  for_each (map (fun callback => Callback.on_train_begin callback (Some logs))
                (_callbacks self)).

Definition on_train_end (self : t) (logs : option Logs) : W -> W * completion :=
  let logs := logs_or_empty logs in
  for_each (map (fun callback => Callback.on_train_end callback (Some logs))
                (_callbacks self)).

(** The forwarding method of an event. *)
Definition forward (self : t) (ev : event) : option Logs -> W -> W * completion :=
  match ev with
  | TrainBegin => on_train_begin self
  | TrainEnd => on_train_end self
  | EpochBegin epoch => on_epoch_begin self epoch
  | EpochEnd epoch => on_epoch_end self epoch
  | BatchBegin batch => on_batch_begin self batch
  | BatchEnd batch => on_batch_end self batch
  end.

End Container.

Arguments t : clear implicits.

End CallbackContainer.

(** ** EarlyStopping *)

Module EarlyStopping.

Section Monitor.

(** [copy.deepcopy] of the parameter state; it may fail (out of memory). *)
Context {Params : Type}.
Variable deepcopy : Params -> exn + Params.

Record t : Type := mk {
  _early_stopping_metric : string;
  _is_maximize : bool;
  _tol : float;
  _patience : Z;
  _best_epoch : Z;
  _stopped_epoch : Z;
  _best_weights : option Params;
  _best_loss : float;
  _wait : Z
}.

Definition __init__ (early_stopping_metric : string) (is_maximize : bool)
    (tol : float) (patience : Z) : t :=
  {| _early_stopping_metric := early_stopping_metric;
     _is_maximize := is_maximize;
     _tol := tol;
     _patience := patience;
     _best_epoch := 0;
     _stopped_epoch := 0;
     _best_weights := None;
     _best_loss := if is_maximize then (- infinity)%float else infinity;
     _wait := 0 |}.

(** The assignments of the improving branch, after the copy has been made. *)
Definition record_improvement (self : t) (weights : Params) (current_loss : float)
    (epoch : Z) : t :=
  {| _early_stopping_metric := _early_stopping_metric self;
     _is_maximize := _is_maximize self;
     _tol := _tol self;
     _patience := _patience self;
     _best_epoch := epoch;
     _stopped_epoch := _stopped_epoch self;
     _best_weights := Some weights;
     _best_loss := current_loss;
     _wait := 0 |}.

Definition set_wait (self : t) (wait : Z) : t :=
  {| _early_stopping_metric := _early_stopping_metric self;
     _is_maximize := _is_maximize self;
     _tol := _tol self;
     _patience := _patience self;
     _best_epoch := _best_epoch self;
     _stopped_epoch := _stopped_epoch self;
     _best_weights := _best_weights self;
     _best_loss := _best_loss self;
     _wait := wait |}.

Definition set_stopped_epoch (self : t) (epoch : Z) : t :=
  {| _early_stopping_metric := _early_stopping_metric self;
     _is_maximize := _is_maximize self;
     _tol := _tol self;
     _patience := _patience self;
     _best_epoch := _best_epoch self;
     _stopped_epoch := epoch;
     _best_weights := _best_weights self;
     _best_loss := _best_loss self;
     _wait := _wait self |}.

Definition set_stop_training (trainer : Trainer.t Params) (flag : bool) : Trainer.t Params :=
  Trainer.mk flag (Trainer._best_epoch trainer) (Trainer._best_cost trainer)
    (Trainer._network trainer) (Trainer._max_epochs trainer).

(** The monitor is bound to [trainer]: [set_trainer] has been called. *)
Definition on_epoch_end (epoch : Z) (logs : option Logs)
    (w : t * Trainer.t Params) : t * Trainer.t Params * completion :=
  let '(self, trainer) := w in
  match logs with
  | None => (self, trainer, Raise AttributeError)
  | Some logs =>
    match dict_get logs (_early_stopping_metric self) with
    | PyNone => (self, trainer, Return)
    | PyFloat current_loss =>
      let loss_change := (current_loss - _best_loss self)%float in
      let max_improved := _is_maximize self && float_gt loss_change (_tol self) in
      let min_improved :=
        negb (_is_maximize self) && float_gt (- loss_change)%float (_tol self) in
      if max_improved || min_improved then
        match deepcopy (Trainer._network trainer) with
        | inl e => (self, trainer, Raise e)
        | inr weights =>
          (record_improvement self weights current_loss epoch, trainer, Return)
        end
      else
        let self := set_wait self (_wait self + 1) in
        if _wait self >=? _patience self then
          (set_stopped_epoch self epoch, set_stop_training trainer true, Return)
        else
          (self, trainer, Return)
    end
  end.

(** The summary line is not modelled. *)
Definition on_train_end (logs : option Logs)
    (w : t * Trainer.t Params) : t * Trainer.t Params * completion :=
  let '(self, trainer) := w in
  let trainer :=
    Trainer.mk (Trainer._stop_training trainer) (_best_epoch self)
      (Trainer._best_cost trainer) (Trainer._network trainer)
      (Trainer._max_epochs trainer) in
  let trainer :=
    Trainer.mk (Trainer._stop_training trainer) (Trainer._best_epoch trainer)
      (_best_loss self) (Trainer._network trainer) (Trainer._max_epochs trainer) in
  let trainer :=
    match _best_weights self with
    | Some weights =>
      Trainer.mk (Trainer._stop_training trainer) (Trainer._best_epoch trainer)
        (Trainer._best_cost trainer) weights (Trainer._max_epochs trainer)
    | None => trainer
    end in
  (self, trainer, Return).

(** The monitor as a callback: the two hooks above, the other four inherited. *)
Definition callback : Callback.t (t * Trainer.t Params) :=
  Callback.mk
    (Callback.on_epoch_begin Callback.base)
    on_epoch_end
    (Callback.on_batch_begin Callback.base)
    (Callback.on_batch_end Callback.base)
    (Callback.on_train_begin Callback.base)
    on_train_end.

(** A training run as the monitor sees it: the epoch-end calls in order,
    abandoned at the first exception. *)
Definition run_epochs (calls : list (Z * Logs)) (w : t * Trainer.t Params)
    : t * Trainer.t Params * completion :=
  CallbackContainer.for_each
    (map (fun call => on_epoch_end (fst call) (Some (snd call))) calls) w.

End Monitor.

Arguments t : clear implicits.

End EarlyStopping.

(** ** History *)

Module History.

(** An attribute is [None] until the hook that first assigns it has run. *)
Record t : Type := mk {
  _verbose : Z;
  _history : option (gmap string (list float));
  _start_time : option pyval;
  _epoch_loss : option float;
  _epoch_metrics : option (gmap string float);
  _samples_seen : option float;
  _train_run_cost : option float;
  _train_reader_cost : option float
}.

Definition __init__ (verbose : Z) : t :=
  mk verbose None None None None None None None.

Definition on_train_begin (logs : option Logs) (self : t) : t * completion :=
  let self :=
    mk (_verbose self) (Some {[ "loss" := []; "lr" := [] ]}) (_start_time self)
       (_epoch_loss self) (_epoch_metrics self) (_samples_seen self)
       (_train_run_cost self) (_train_reader_cost self) in
  match logs with
  | None => (self, Raise TypeError)
  | Some logs =>
    match dict_getitem logs "start_time" with
    | inl e => (self, Raise e)
    | inr start_time =>
      (mk (_verbose self) (_history self) (Some start_time) (Some 0%float)
          (_epoch_metrics self) (_samples_seen self)
          (_train_run_cost self) (_train_reader_cost self),
       Return)
    end
  end.

Definition on_epoch_begin (epoch : Z) (logs : option Logs) (self : t) : t * completion :=
  (mk (_verbose self) (_history self) (_start_time self) (_epoch_loss self)
      (Some {[ "loss" := 0%float ]}) (Some 0%float) (Some 0%float) (Some 0%float),
   Return).

Definition on_epoch_end (epoch : Z) (logs : option Logs) (self : t) : t * completion :=
  match getattr (_epoch_loss self) with
  | inl e => (self, Raise e)
  | inr epoch_loss =>
    match getattr (_epoch_metrics self) with
    | inl e => (self, Raise e)
    | inr epoch_metrics =>
      (mk (_verbose self) (_history self) (_start_time self) (_epoch_loss self)
          (Some (<[ "loss" := epoch_loss ]> epoch_metrics)) (_samples_seen self)
          (_train_run_cost self) (_train_reader_cost self),
       Return)
    end
  end.

(** The reads of the record and the new average, up to the two assignments. *)
Definition batch_update (logs : Logs) (self : t) : exn + (float * pyval * float * float) :=
  let! batch_size := dict_getitem logs "batch_size" in
  let! batch_loss := dict_getitem logs "loss" in
  let! epoch := dict_getitem logs "epoch" in
  let! max_epochs := dict_getitem logs "max_epochs" in
  let! steps := dict_getitem logs "steps" in
  let! lr := dict_getitem logs "lr" in
  let! samples_seen := getattr (_samples_seen self) in
  let! epoch_loss := getattr (_epoch_loss self) in
  let! size := as_number batch_size in
  let! loss := as_number batch_loss in
  let! average :=
    float_truediv (samples_seen * epoch_loss + size * loss)%float
                  (samples_seen + size)%float in
  inr (size, lr, average, (samples_seen + size)%float).

(** What building the progress line can raise; [now] is [time.time()].  The
    device memory counters come from the framework and are left out. *)
Definition batch_message (now : float) (logs : Logs) (self : t)
    (batch_size : float) (lr : pyval) : exn + Z :=
  let! lr_text := format_6f lr in
  let! reader_text :=
    match dict_get logs "train_reader_cost" with
    | PyNone => inr tt
    | PyFloat reader_cost => format_6f (PyFloat reader_cost)
    end in
  let! batch_text :=
    match dict_get logs "train_run_cost" with
    | PyNone => inr tt
    | PyFloat batch_cost =>
      let! ips := float_truediv batch_size batch_cost in
      format_6f (PyFloat ips)
    end in
  let! start_time := getattr (_start_time self) in
  let! start := as_number start_time in
  let! total_time := int_of_float (now - start)%float in
  timedelta total_time.

Definition on_batch_end (now : float) (batch : Z) (logs : option Logs) (self : t)
    : t * completion :=
  match logs with
  | None => (self, Raise TypeError)
  | Some logs =>
    match batch_update logs self with
    | inl e => (self, Raise e)
    | inr (batch_size, lr, average, samples_seen) =>
      let self :=
        mk (_verbose self) (_history self) (_start_time self) (Some average)
           (_epoch_metrics self) (_samples_seen self)
           (_train_run_cost self) (_train_reader_cost self) in
      let self :=
        mk (_verbose self) (_history self) (_start_time self) (_epoch_loss self)
           (_epoch_metrics self) (Some samples_seen)
           (_train_run_cost self) (_train_reader_cost self) in
      (self, completion_of (batch_message now logs self batch_size lr))
    end
  end.

(** The recorder as a callback, read against a clock that shows [now]. *)
Definition callback (now : float) : Callback.t t :=
  Callback.mk
    on_epoch_begin
    on_epoch_end
    (Callback.on_batch_begin Callback.base)
    (on_batch_end now)
    on_train_begin
    (Callback.on_train_end Callback.base).

(** The batches of one epoch, abandoned at the first exception. *)
Definition run_batches (now : float) (calls : list (Z * Logs)) : t -> t * completion :=
  CallbackContainer.for_each
    (map (fun call => on_batch_end now (fst call) (Some (snd call))) calls).

End History.

(** ** The specification's side

    Definitions that follow the words of the specification, to be compared
    with the code above. *)

Module Spec.

(** Best value before any epoch: -inf when maximizing, +inf when minimizing. *)
Definition initial_best (maximize : bool) : float :=
  if maximize then (- infinity)%float else infinity.

(** Improvement test: with [delta = current_value - best_value], improved iff
    [delta > tolerance] when maximizing and [-delta > tolerance] when
    minimizing. *)
Definition improved (maximize : bool) (tolerance best_value current_value : float) : bool :=
  let delta := (current_value - best_value)%float in
  if maximize then float_gt delta tolerance else float_gt (- delta)%float tolerance.

(** A value is within tolerance of the best one. *)
Definition within_tolerance (tolerance best_value current_value : float) : bool :=
  (abs (current_value - best_value) <=? tolerance)%float.

(** The extremum of the values filtered by the improvement rule. *)
Definition gated_step (maximize : bool) (tolerance : float) (best_value v : float) : float :=
  if improved maximize tolerance best_value v then v else best_value.

Definition gated_extremum_from (maximize : bool) (tolerance : float)
    (best_value : float) (values : list float) : float :=
  fold_left (gated_step maximize tolerance) values best_value.

Definition gated_extremum (maximize : bool) (tolerance : float) (values : list float) : float :=
  gated_extremum_from maximize tolerance (initial_best maximize) values.

(** For each value in turn, whether it is accepted as an improvement. *)
Fixpoint accepted (maximize : bool) (tolerance : float) (best_value : float)
    (values : list float) : list bool :=
  match values with
  | [] => []
  | v :: rest =>
    improved maximize tolerance best_value v
      :: accepted maximize tolerance (gated_step maximize tolerance best_value v) rest
  end.

(** [n] calls have been made since the last accepted improvement (or since
    the start, when none has been accepted). *)
Definition since_last_accepted (flags : list bool) (n : nat) : Prop :=
  flags = replicate n false \/
  exists earlier, flags = earlier ++ true :: replicate n false.

(** The stored best value is the value of the metric that a call made at the
    stored best epoch reported. *)
Definition best_reported_at_best_epoch (metric : string) (calls : list (Z * Logs))
    (best_epoch : Z) (best_value : float) : Prop :=
  exists logs, (best_epoch, logs) ∈ calls /\ logs !! metric = Some (PyFloat best_value).

(** The running average as the specification writes it,
    [epoch_loss = (seen*epoch_loss + batch_size*batch_loss) / (seen+batch_size)]
    and [seen += batch_size], over any arithmetic. *)
Section RunningAverage.

Context {N : Type}.
Variables (add mul div : N -> N -> N).

Definition average_step (acc : N * N) (batch : N * N) : N * N :=
  let '(seen, epoch_loss) := acc in
  let '(batch_size, batch_loss) := batch in
  (add seen batch_size,
   div (add (mul seen epoch_loss) (mul batch_size batch_loss)) (add seen batch_size)).

Definition running_average (acc : N * N) (batches : list (N * N)) : N * N :=
  fold_left average_step batches acc.

End RunningAverage.

(** In binary64, as the code computes, and in exact rational arithmetic. *)
Definition running_average_float : float * float -> list (float * float) -> float * float :=
  running_average PrimFloat.add PrimFloat.mul PrimFloat.div.

Definition running_average_Q : Q * Q -> list (Q * Q) -> Q * Q :=
  running_average Qplus Qmult Qdiv.

(** The batch-size-weighted average, (sum of b_i*l_i) / (sum of b_i). *)
Definition weighted_sum (batches : list (Q * Q)) : Q :=
  fold_right (fun batch total => (fst batch * snd batch + total)%Q) 0%Q batches.

Definition total_size (batches : list (Q * Q)) : Q :=
  fold_right (fun batch total => (fst batch + total)%Q) 0%Q batches.

Definition weighted_average (batches : list (Q * Q)) : Q :=
  (weighted_sum batches / total_size batches)%Q.

(** The rational number a finite float is. *)
Definition Q_of_float (x : float) : option Q :=
  match Prim2SF x with
  | S754_zero _ => Some 0%Q
  | S754_finite s m e =>
    Some ((if s then inject_Z (Z.neg m) else inject_Z (Z.pos m)) * Qpower 2 e)%Q
  | _ => None
  end.

(** The keys [History.on_batch_end] subscripts the record with, in the order
    of the reads. *)
Definition required_batch_keys : list string :=
  ["batch_size"; "loss"; "epoch"; "max_epochs"; "steps"; "lr"].

(** The first required key, in the order of the reads, that a record lacks. *)
Definition first_missing (logs : Logs) : option string :=
  List.find (fun key => match logs !! key with None => true | Some _ => false end)
    required_batch_keys.

(** A record without the two keys that are read with [get]. *)
Definition without_optional_keys (logs : Logs) : Logs :=
  delete "train_reader_cost" (delete "train_run_cost" logs).

End Spec.

(** ** Probes: callbacks that note each call

    To observe which hooks a forwarding method invokes, and in which order,
    a callback is wrapped so that every call first appends an entry (who was
    called, for which event, with which record) to a journal that all the
    wrapped callbacks share. *)

Module Probe.

Record entry : Type := mk { who : nat; what : event; record : option Logs }.

Definition noting {W : Type} (id : nat) (ev : event) (logs : option Logs)
    (hook : W -> W * completion) (w : list entry * W) : list entry * W * completion :=
  let '(journal, w0) := w in
  let '(w1, outcome) := hook w0 in
  (journal ++ [mk id ev logs], w1, outcome).

Definition probe {W : Type} (id : nat) (cb : Callback.t W) : Callback.t (list entry * W) :=
  Callback.mk
    (fun epoch logs => noting id (EpochBegin epoch) logs (Callback.on_epoch_begin cb epoch logs))
    (fun epoch logs => noting id (EpochEnd epoch) logs (Callback.on_epoch_end cb epoch logs))
    (fun batch logs => noting id (BatchBegin batch) logs (Callback.on_batch_begin cb batch logs))
    (fun batch logs => noting id (BatchEnd batch) logs (Callback.on_batch_end cb batch logs))
    (fun logs => noting id TrainBegin logs (Callback.on_train_begin cb logs))
    (fun logs => noting id TrainEnd logs (Callback.on_train_end cb logs)).

(** The callbacks of a container, each wrapped under its position. *)
Definition probes {W : Type} (first : nat) (callbacks : list (Callback.t W))
    : list (Callback.t (list entry * W)) :=
  imap (fun i cb => probe (first + i) cb) callbacks.

(** The entries of the callbacks at positions [first .. first + n - 1]. *)
Definition entries (first n : nat) (ev : event) (logs : option Logs) : list entry :=
  map (fun i => mk i ev logs) (seq first n).

End Probe.

(** ** Shorthands for the statements about the monitor *)

Section MonitorShorthands.

Context {Params : Type}.

(** What the monitor is configured with; no hook assigns it. *)
Definition same_config (self self' : EarlyStopping.t Params) : Prop :=
  EarlyStopping._early_stopping_metric self' = EarlyStopping._early_stopping_metric self /\
  EarlyStopping._is_maximize self' = EarlyStopping._is_maximize self /\
  EarlyStopping._tol self' = EarlyStopping._tol self /\
  EarlyStopping._patience self' = EarlyStopping._patience self.

(** The specification's improvement test on the monitor's stored values. *)
Definition improves (self : EarlyStopping.t Params) (v : float) : bool :=
  Spec.improved (EarlyStopping._is_maximize self) (EarlyStopping._tol self)
    (EarlyStopping._best_loss self) v.

(** Every call of the list reports the metric, with these values. *)
Definition reports (metric : string) (calls : list (Z * Logs)) (values : list float) : Prop :=
  Forall2 (fun call v => snd call !! metric = Some (PyFloat v)) calls values.

(** Every batch-end call of the list carries the batch size and loss of the
    batch at its place. *)
Definition carries (calls : list (Z * Logs)) (batches : list (float * float)) : Prop :=
  Forall2 (fun call item =>
             snd call !! "batch_size" = Some (PyFloat (fst item)) /\
             snd call !! "loss" = Some (PyFloat (snd item))) calls batches.

(** Any sequence of calls of the monitor's six hooks, each taken to its end
    whether it returns or raises. *)
Definition hook_calls (deepcopy : Params -> exn + Params)
    (calls : list (event * option Logs))
    (w : EarlyStopping.t Params * Trainer.t Params)
    : EarlyStopping.t Params * Trainer.t Params :=
  fold_left
    (fun w call => fst (Callback.hook (EarlyStopping.callback deepcopy) (fst call) (snd call) w))
    calls w.

End MonitorShorthands.

(** ** Concrete trainers, records and scenarios *)

Module Scenario.

(** Parameters are a list of weights; copying them always succeeds. *)
Definition copy_ok (p : list float) : exn + list float := inr p.

(** Copying runs out of memory on anything but the empty state. *)
Definition copy_fails (p : list float) : exn + list float :=
  match p with
  | [] => inr []
  | _ => inl MemoryError
  end.

Definition trainer0 : Trainer.t (list float) :=
  Trainer.mk false 0 0%float [0.25%float; 0.5%float] 100.

(** One epoch-end call per value, at epochs 0, 1, 2, ... *)
Definition epoch_calls (metric : string) (values : list float) : list (Z * Logs) :=
  imap (fun i v => (Z.of_nat i, {[ metric := PyFloat v ]})) values.

(** What the scenarios look at after a call. *)
Record observation : Type := observed {
  best_value : float;
  best_epoch : Z;
  wait_count : Z;
  stopped_epoch : Z;
  stop_flag : bool
}.

Definition observe (w : EarlyStopping.t (list float) * Trainer.t (list float)) : observation :=
  observed (EarlyStopping._best_loss (fst w)) (EarlyStopping._best_epoch (fst w))
    (EarlyStopping._wait (fst w)) (EarlyStopping._stopped_epoch (fst w))
    (Trainer._stop_training (snd w)).

(** The observations after the first call, the first two calls, and so on. *)
Definition after_each_call (monitor : EarlyStopping.t (list float))
    (calls : list (Z * Logs)) : list observation :=
  map (fun k => observe (fst (EarlyStopping.run_epochs copy_ok (take k calls)
                                (monitor, trainer0))))
      (seq 1 (length calls)).

(** Scenario A: patience=2, tol=0.0, maximize=False. *)
Definition monitor_A : EarlyStopping.t (list float) :=
  EarlyStopping.__init__ "loss" false 0%float 2.

Definition values_A : list float := [1.0; 1.2; 1.3; 1.25; 1.4]%float.

(** Scenario B: patience=3, tol=0.01, maximize=True. *)
Definition monitor_B : EarlyStopping.t (list float) :=
  EarlyStopping.__init__ "acc" true 0.01%float 3.

Definition values_B : list float := [0.5; 0.505; 0.52; 0.60]%float.

(** A batch-end record with the six required keys. *)
Definition batch_record (batch_size batch_loss : float) : Logs :=
  {[ "batch_size" := PyFloat batch_size; "loss" := PyFloat batch_loss;
     "epoch" := PyFloat 1; "max_epochs" := PyFloat 10;
     "steps" := PyFloat 1; "lr" := PyFloat 0.001 ]}.

(** A recorder after [on_train_begin] at time 1000. *)
Definition recorder0 : History.t :=
  fst (History.on_train_begin (Some {[ "start_time" := PyFloat 1000 ]}) (History.__init__ 1)).

(** One batch-end call per batch, numbered 0, 1, 2, ... *)
Definition batch_calls (batches : list (float * float)) : list (Z * Logs) :=
  imap (fun i batch => (Z.of_nat i, batch_record (fst batch) (snd batch))) batches.

(** An epoch of the recorder: [on_epoch_begin], then the batches, read
    against a clock that shows 1005. *)
Definition epoch_of_batches (epoch : Z) (batches : list (float * float))
    (self : History.t) : History.t * completion :=
  History.run_batches 1005%float (batch_calls batches)
    (fst (History.on_epoch_begin epoch (Some ∅) self)).

End Scenario.

(** ** The rest of the module

    What the definitions above leave out of the source: the lines that
    [EarlyStopping.on_train_end] logs, a monitor whose [_trainer] has not been
    assigned, [set_trainer], several monitors on one trainer, and sequences of
    calls of the recorder's hooks. *)

Module Summary.

(** The lines [EarlyStopping.on_train_end] hands to the logger, by their
    fields. *)
Inductive message : Type :=
  | EarlyStoppingOccurred (metric : string) (stopped_epoch best_epoch : Z) (best : float)
  | ReachedMaxEpochs (metric : string) (max_epochs best_epoch : Z) (best : float)
  | BestWeightsUsed.

(** [if self._stopped_epoch > 0: ... else: ...], then the line about the
    best weights; the trainer is the one [on_train_end] has written to. *)
Definition on_train_end_messages {Params : Type} (self : EarlyStopping.t Params)
    (trainer : Trainer.t Params) : list message :=
  [ if EarlyStopping._stopped_epoch self >? 0 then
      EarlyStoppingOccurred (EarlyStopping._early_stopping_metric self)
        (EarlyStopping._stopped_epoch self) (EarlyStopping._best_epoch self)
        (EarlyStopping._best_loss self)
    else
      ReachedMaxEpochs (EarlyStopping._early_stopping_metric self)
        (Trainer._max_epochs trainer) (EarlyStopping._best_epoch self)
        (EarlyStopping._best_loss self);
    BestWeightsUsed ].

(** The messages of a call of [on_train_end]. *)
Definition logged {Params : Type} (logs : option Logs)
    (w : EarlyStopping.t Params * Trainer.t Params) : list message :=
  let '(self, trainer, _) := EarlyStopping.on_train_end logs w in
  on_train_end_messages self trainer.

End Summary.

Module Unbound.

Section Monitor.

Context {Params : Type}.
Variable deepcopy : Params -> exn + Params.

(** [EarlyStopping.on_epoch_end] on a monitor whose attribute [_trainer] is
    [Some trainer] once [set_trainer] has assigned it and [None] before:
    reading [self._trainer] then raises [AttributeError]. *)
Definition on_epoch_end (epoch : Z) (logs : option Logs)
    (w : EarlyStopping.t Params * option (Trainer.t Params))
    : EarlyStopping.t Params * option (Trainer.t Params) * completion :=
  let '(self, _trainer) := w in
  match logs with
  | None => (self, _trainer, Raise AttributeError)
  | Some logs =>
    match dict_get logs (EarlyStopping._early_stopping_metric self) with
    | PyNone => (self, _trainer, Return)
    | PyFloat current_loss =>
      let loss_change := (current_loss - EarlyStopping._best_loss self)%float in
      let max_improved :=
        EarlyStopping._is_maximize self && float_gt loss_change (EarlyStopping._tol self) in
      let min_improved :=
        negb (EarlyStopping._is_maximize self)
        && float_gt (- loss_change)%float (EarlyStopping._tol self) in
      if max_improved || min_improved then
        match _trainer with
        | None => (self, _trainer, Raise AttributeError)
        | Some trainer =>
          match deepcopy (Trainer._network trainer) with
          | inl e => (self, _trainer, Raise e)
          | inr weights =>
            (EarlyStopping.record_improvement self weights current_loss epoch,
             _trainer, Return)
          end
        end
      else
        let self := EarlyStopping.set_wait self (EarlyStopping._wait self + 1) in
        if EarlyStopping._wait self >=? EarlyStopping._patience self then
          match _trainer with
          | None => (self, _trainer, Raise AttributeError)
          | Some trainer =>
            (EarlyStopping.set_stopped_epoch self epoch,
             Some (EarlyStopping.set_stop_training trainer true), Return)
          end
        else
          (self, _trainer, Return)
    end
  end.

(** [EarlyStopping.on_train_end] likewise: its first statement reads
    [self._trainer]. *)
Definition on_train_end (logs : option Logs)
    (w : EarlyStopping.t Params * option (Trainer.t Params))
    : EarlyStopping.t Params * option (Trainer.t Params) * completion :=
  let '(self, _trainer) := w in
  match _trainer with
  | None => (self, _trainer, Raise AttributeError)
  | Some trainer =>
    let '(self, trainer, outcome) := EarlyStopping.on_train_end logs (self, trainer) in
    (self, Some trainer, outcome)
  end.

(** Epoch-end calls in order, abandoned at the first exception. *)
Definition run_epochs (calls : list (Z * Logs))
    : EarlyStopping.t Params * option (Trainer.t Params)
      -> EarlyStopping.t Params * option (Trainer.t Params) * completion :=
  CallbackContainer.for_each
    (map (fun call => on_epoch_end (fst call) (Some (snd call))) calls).

End Monitor.

End Unbound.

Module Binding.

Section References.

(** [Ref] is what a variable that holds the model holds: the object's
    identity.  [S] is the rest of a callback object. *)
Context {Ref S : Type}.

Record callback : Type := mk_callback {
  object : S;
  callback_trainer : option Ref
}.

(** A callback as its constructor leaves it: [Callback.__init__] assigns
    nothing. *)
Definition fresh (o : S) : callback := mk_callback o None.

(** [Callback.set_trainer] *)
Definition callback_set_trainer (self : callback) (model : Ref) : callback :=
  mk_callback (object self) (Some model).

Record container : Type := mk_container {
  _callbacks : list callback;
  _trainer : option Ref
}.

(** [CallbackContainer.__init__] *)
Definition __init__ (callbacks : list callback) : container :=
  mk_container callbacks None.

(** [CallbackContainer.append] *)
Definition append (self : container) (cb : callback) : container :=
  mk_container (_callbacks self ++ [cb]) (_trainer self).

(** [CallbackContainer.set_trainer] *)
Definition set_trainer (self : container) (model : Ref) : container :=
  mk_container (map (fun cb => callback_set_trainer cb model) (_callbacks self))
    (Some model).

End References.

Arguments callback : clear implicits.
Arguments container : clear implicits.

End Binding.

Module Shared.

Section TwoMonitors.

Context {Params : Type}.

(** Two monitors bound to the same trainer, and the trainer. *)
Definition world : Type :=
  EarlyStopping.t Params * EarlyStopping.t Params * Trainer.t Params.

Definition on_first
    (hook : EarlyStopping.t Params * Trainer.t Params
            -> EarlyStopping.t Params * Trainer.t Params * completion)
    (w : world) : world * completion :=
  let '(first, second, trainer) := w in
  let '(first, trainer, outcome) := hook (first, trainer) in
  (first, second, trainer, outcome).

Definition on_second
    (hook : EarlyStopping.t Params * Trainer.t Params
            -> EarlyStopping.t Params * Trainer.t Params * completion)
    (w : world) : world * completion :=
  let '(first, second, trainer) := w in
  let '(second, trainer, outcome) := hook (second, trainer) in
  (first, second, trainer, outcome).

(** A callback of one monitor as a callback of the world it lives in. *)
Definition within
    (on : (EarlyStopping.t Params * Trainer.t Params
           -> EarlyStopping.t Params * Trainer.t Params * completion)
          -> world -> world * completion)
    (cb : Callback.t (EarlyStopping.t Params * Trainer.t Params)) : Callback.t world :=
  Callback.mk
    (fun epoch logs => on (Callback.on_epoch_begin cb epoch logs))
    (fun epoch logs => on (Callback.on_epoch_end cb epoch logs))
    (fun batch logs => on (Callback.on_batch_begin cb batch logs))
    (fun batch logs => on (Callback.on_batch_end cb batch logs))
    (fun logs => on (Callback.on_train_begin cb logs))
    (fun logs => on (Callback.on_train_end cb logs)).

(** The container [CallbackContainer([first, second])]. *)
Definition container (deepcopy : Params -> exn + Params) : CallbackContainer.t world :=
  CallbackContainer.__init__
    [ within on_first (EarlyStopping.callback deepcopy);
      within on_second (EarlyStopping.callback deepcopy) ].

End TwoMonitors.

End Shared.

Section RecorderShorthands.

(** Any sequence of calls of the recorder's six hooks, each against its own
    clock reading and taken to its end whether it returns or raises. *)
Definition recorder_calls (calls : list (float * event * option Logs))
    (self : History.t) : History.t :=
  fold_left
    (fun self call =>
       fst (Callback.hook (History.callback (fst (fst call))) (snd (fst call)) (snd call) self))
    calls self.

(** The metric is in the record, with a number. *)
Definition reports_metric (metric : string) (call : Z * Logs) : bool :=
  match dict_get (snd call) metric with
  | PyFloat _ => true
  | PyNone => false
  end.

(** The attributes of the recorder that [on_batch_end] does not assign. *)
Definition same_but_average (self self' : History.t) : Prop :=
  History._verbose self' = History._verbose self /\
  History._history self' = History._history self /\
  History._start_time self' = History._start_time self /\
  History._epoch_metrics self' = History._epoch_metrics self /\
  History._train_run_cost self' = History._train_run_cost self /\
  History._train_reader_cost self' = History._train_reader_cost self.

End RecorderShorthands.

Section MoreShorthands.

Context {Params : Type}.

(** The call would set the stop flag: the metric is reported, is no
    improvement, and the wait counter reaches patience with it. *)
Definition triggers (self : EarlyStopping.t Params) (logs : Logs) : bool :=
  match dict_get logs (EarlyStopping._early_stopping_metric self) with
  | PyFloat v =>
    negb (improves self v)
    && (EarlyStopping._wait self + 1 >=? EarlyStopping._patience self)
  | PyNone => false
  end.

(** Training between the epoch-end calls: each call finds the network with
    the parameter state that the epoch has left in it. *)
Definition train (params : Params) (trainer : Trainer.t Params) : Trainer.t Params :=
  Trainer.mk (Trainer._stop_training trainer) (Trainer._best_epoch trainer)
    (Trainer._best_cost trainer) params (Trainer._max_epochs trainer).

(** The epochs of a training run as the monitor sees them, each given by the
    parameter state it ends with and its epoch-end call, taken to the end
    whether the calls return or raise. *)
Definition epochs_with_training (deepcopy : Params -> exn + Params)
    (epochs : list (Params * (Z * Logs)))
    (w : EarlyStopping.t Params * Trainer.t Params)
    : EarlyStopping.t Params * Trainer.t Params :=
  fold_left
    (fun w step =>
       fst (EarlyStopping.on_epoch_end deepcopy (fst (snd step)) (Some (snd (snd step)))
              (fst w, train (fst step) (snd w))))
    epochs w.

(** Every epoch-end call among the hook calls is made at an epoch above 0. *)
Definition epochs_from_one (calls : list (event * option Logs)) : Prop :=
  Forall (fun call => match fst call with EpochEnd epoch => 0 < epoch | _ => True end) calls.

End MoreShorthands.

(** Callbacks on a shared counter: one whose hooks add 1, one whose hooks
    add 10 and raise. *)
Module Counter.

Definition bump : Callback.t Z :=
  Callback.mk
    (fun _ _ n => (n + 1, Return)) (fun _ _ n => (n + 1, Return))
    (fun _ _ n => (n + 1, Return)) (fun _ _ n => (n + 1, Return))
    (fun _ n => (n + 1, Return)) (fun _ n => (n + 1, Return)).

Definition broken (e : exn) : Callback.t Z :=
  Callback.mk
    (fun _ _ n => (n + 10, Raise e)) (fun _ _ n => (n + 10, Raise e))
    (fun _ _ n => (n + 10, Raise e)) (fun _ _ n => (n + 10, Raise e))
    (fun _ n => (n + 10, Raise e)) (fun _ n => (n + 10, Raise e)).

End Counter.

(** Invariants of the monitor and its trainer. *)
Section MonitorInvariants.

Context {Params : Type}.
Variable deepcopy : Params -> exn + Params.

Implicit Types (self : EarlyStopping.t Params) (trainer : Trainer.t Params).

(** What every state of the monitor and its trainer that hook calls can
    reach satisfies, from a state that satisfies it. *)
Definition monitor_invariant (is_maximize : bool) self trainer : Prop :=
  0 <= EarlyStopping._wait self /\
  (EarlyStopping._best_weights self = None ->
   EarlyStopping._best_loss self = Spec.initial_best is_maximize /\
   EarlyStopping._best_epoch self = 0) /\
  (1 <= EarlyStopping._patience self ->
   EarlyStopping._patience self <= EarlyStopping._wait self ->
   Trainer._stop_training trainer = true).

(** The stop flag is set exactly when a stopped epoch above 0 is recorded. *)
Definition flag_is_recorded self trainer : Prop :=
  Trainer._stop_training trainer = true <-> 0 < EarlyStopping._stopped_epoch self.

(** The snapshot is a copy of the parameter state of an epoch in [P], made
    when that epoch reported the stored best value. *)
Definition snapshot_from (P : Params * (Z * Logs) -> Prop) (metric : string) self : Prop :=
  EarlyStopping._early_stopping_metric self = metric /\
  forall weights,
    EarlyStopping._best_weights self = Some weights ->
    exists params logs,
      P (params, (EarlyStopping._best_epoch self, logs)) /\
      deepcopy params = inr weights /\
      logs !! metric = Some (PyFloat (EarlyStopping._best_loss self)).

End MonitorInvariants.

(** * Facts *)

(** ** Comparison of floats *)

Section FloatOrder.

Local Open Scope float_scope.

Lemma SFcompare_antisym (x y : spec_float) :
  SFcompare y x = option_map CompOpp (SFcompare x y).
Proof.
  destruct x as [sx|sx| |sx mx ex], y as [sy|sy| |sy my ey]; simpl;
    try reflexivity;
    try (destruct sx; reflexivity);
    try (destruct sy; reflexivity);
    try (destruct sx, sy; reflexivity).
  destruct sx, sy; simpl; try reflexivity;
    rewrite (Z.compare_antisym ex ey);
    destruct (ex ?= ey)%Z; simpl; try reflexivity;
    change (Pos.compare_cont Eq my mx) with (Pos.compare_cont (CompOpp Eq) my mx);
    rewrite <- (Pos.compare_cont_antisym mx my Eq); reflexivity.
Qed.

(** [x <= y] excludes [y < x], also for infinities and NaN. *)
Lemma SFleb_not_SFltb (x y : spec_float) : SFleb x y = true -> SFltb y x = false.
Proof.
  unfold SFleb, SFltb. rewrite (SFcompare_antisym x y).
  destruct (SFcompare x y) as [[]|]; simpl; congruence.
Qed.

Lemma SFabs_leb_l (x y : spec_float) : SFleb (SFabs x) y = true -> SFleb x y = true.
Proof.
  unfold SFleb.
  destruct x as [sx|sx| |sx mx ex], y as [sy|sy| |sy my ey]; simpl; try congruence;
    try (destruct sx; simpl; congruence);
    try (destruct sx, sy; simpl; congruence).
Qed.

Lemma SFabs_leb_opp (x y : spec_float) :
  SFleb (SFabs x) y = true -> SFleb (SFopp x) y = true.
Proof.
  unfold SFleb.
  destruct x as [sx|sx| |sx mx ex], y as [sy|sy| |sy my ey]; simpl; try congruence;
    try (destruct sx; simpl; congruence);
    try (destruct sx, sy; simpl; congruence).
Qed.

Lemma abs_leb_not_gt (d tol : float) : (abs d <=? tol) = true -> float_gt d tol = false.
Proof.
  unfold float_gt. rewrite leb_spec, ltb_spec, abs_spec. intros H.
  apply SFleb_not_SFltb, SFabs_leb_l, H.
Qed.

Lemma abs_leb_not_gt_opp (d tol : float) :
  (abs d <=? tol) = true -> float_gt (- d) tol = false.
Proof.
  unfold float_gt. rewrite leb_spec, ltb_spec, abs_spec, opp_spec. intros H.
  apply SFleb_not_SFltb, SFabs_leb_opp, H.
Qed.

End FloatOrder.

(** ** One call of [EarlyStopping.on_epoch_end] *)

Section EarlyStoppingSteps.

Context {Params : Type}.
Variable deepcopy : Params -> exn + Params.

Implicit Types (self : EarlyStopping.t Params) (trainer : Trainer.t Params).
Implicit Types (logs : Logs) (epoch : Z) (v : float).

(** The code's two flags together are the specification's test. *)
Lemma improved_flags self v :
  let loss_change := (v - EarlyStopping._best_loss self)%float in
  (EarlyStopping._is_maximize self && float_gt loss_change (EarlyStopping._tol self))
  || (negb (EarlyStopping._is_maximize self)
      && float_gt (- loss_change)%float (EarlyStopping._tol self))
  = improves self v.
Proof.
  unfold improves, Spec.improved.
  destruct (EarlyStopping._is_maximize self); simpl.
  - apply orb_false_r.
  - reflexivity.
Qed.

Lemma dict_get_float logs key v : logs !! key = Some (PyFloat v) -> dict_get logs key = PyFloat v.
Proof. unfold dict_get. intros ->. reflexivity. Qed.

Lemma dict_get_missing logs key : logs !! key = None -> dict_get logs key = PyNone.
Proof. unfold dict_get. intros ->. reflexivity. Qed.

Lemma on_epoch_end_present self trainer epoch logs v :
  logs !! EarlyStopping._early_stopping_metric self = Some (PyFloat v) ->
  EarlyStopping.on_epoch_end deepcopy epoch (Some logs) (self, trainer) =
  if improves self v then
    match deepcopy (Trainer._network trainer) with
    | inl e => (self, trainer, Raise e)
    | inr weights => (EarlyStopping.record_improvement self weights v epoch, trainer, Return)
    end
  else
    let waited := EarlyStopping.set_wait self (EarlyStopping._wait self + 1) in
    if EarlyStopping._wait waited >=? EarlyStopping._patience waited then
      (EarlyStopping.set_stopped_epoch waited epoch,
       EarlyStopping.set_stop_training trainer true, Return)
    else (waited, trainer, Return).
Proof.
  intros Hv. unfold EarlyStopping.on_epoch_end.
  rewrite (dict_get_float _ _ _ Hv). cbv zeta.
  rewrite (improved_flags self v). reflexivity.
Qed.

(** After a call that returns with the metric present, in terms of whether
    the value was accepted. *)
Lemma on_epoch_end_returns self trainer epoch logs v :
  (forall p, exists q, deepcopy p = inr q) ->
  logs !! EarlyStopping._early_stopping_metric self = Some (PyFloat v) ->
  exists self' trainer',
    EarlyStopping.on_epoch_end deepcopy epoch (Some logs) (self, trainer)
      = (self', trainer', Return) /\
    same_config self self' /\
    EarlyStopping._best_loss self' =
      Spec.gated_step (EarlyStopping._is_maximize self) (EarlyStopping._tol self)
        (EarlyStopping._best_loss self) v /\
    if improves self v then
      EarlyStopping._wait self' = 0 /\
      EarlyStopping._best_epoch self' = epoch /\
      is_Some (EarlyStopping._best_weights self')
    else
      EarlyStopping._wait self' = EarlyStopping._wait self + 1 /\
      EarlyStopping._best_epoch self' = EarlyStopping._best_epoch self /\
      EarlyStopping._best_weights self' = EarlyStopping._best_weights self.
Proof.
  intros Hcopy Hv. rewrite (on_epoch_end_present _ _ _ _ _ Hv).
  unfold Spec.gated_step. fold (improves self v).
  destruct (improves self v).
  - destruct (Hcopy (Trainer._network trainer)) as [weights ->].
    eexists _, _. split; [reflexivity|]. unfold same_config. simpl. eauto 10.
  - cbv zeta.
    destruct (_ >=? _); eexists _, _; (split; [reflexivity|]);
      unfold same_config; simpl; eauto 10.
Qed.

End EarlyStoppingSteps.

(** ** Runs of epoch-end calls *)

Section EarlyStoppingRuns.

Context {Params : Type}.
Variable deepcopy : Params -> exn + Params.
Hypothesis deepcopy_succeeds : forall p, exists q, deepcopy p = inr q.

Implicit Types (self : EarlyStopping.t Params) (trainer : Trainer.t Params).

Lemma run_epochs_cons call calls (w : EarlyStopping.t Params * Trainer.t Params) :
  EarlyStopping.run_epochs deepcopy (call :: calls) w =
  match EarlyStopping.on_epoch_end deepcopy (fst call) (Some (snd call)) w with
  | (w', Return) => EarlyStopping.run_epochs deepcopy calls w'
  | (w', Raise e) => (w', Raise e)
  end.
Proof. reflexivity. Qed.

Lemma same_config_refl self : same_config self self.
Proof. unfold same_config. auto. Qed.

Lemma same_config_trans self1 self2 self3 :
  same_config self1 self2 -> same_config self2 self3 -> same_config self1 self3.
Proof. unfold same_config. intuition congruence. Qed.

(** Values of which none is accepted leave the best value as it was. *)
Lemma accepted_none_keeps maximize tol best values :
  Spec.accepted maximize tol best values
    = replicate (length (Spec.accepted maximize tol best values)) false ->
  Spec.gated_extremum_from maximize tol best values = best.
Proof.
  revert best. induction values as [|u values IHv]; intros best Hall; [reflexivity|].
  simpl in Hall. injection Hall as Hu Hall.
  unfold Spec.gated_extremum_from. simpl.
  unfold Spec.gated_step at 2. rewrite Hu.
  unfold Spec.gated_step in Hall. rewrite Hu in Hall.
  apply IHv, Hall.
Qed.

(** What a run from any state of the monitor leaves behind. *)
Lemma run_epochs_returns metric calls values :
  reports metric calls values ->
  forall self trainer,
  EarlyStopping._early_stopping_metric self = metric ->
  exists self' trainer',
    EarlyStopping.run_epochs deepcopy calls (self, trainer) = (self', trainer', Return) /\
    same_config self self' /\
    EarlyStopping._best_loss self' =
      Spec.gated_extremum_from (EarlyStopping._is_maximize self) (EarlyStopping._tol self)
        (EarlyStopping._best_loss self) values /\
    let flags :=
      Spec.accepted (EarlyStopping._is_maximize self) (EarlyStopping._tol self)
        (EarlyStopping._best_loss self) values in
    (flags = replicate (length flags) false /\
     EarlyStopping._wait self' = EarlyStopping._wait self + Z.of_nat (length flags) /\
     EarlyStopping._best_epoch self' = EarlyStopping._best_epoch self /\
     EarlyStopping._best_weights self' = EarlyStopping._best_weights self)
    \/
    (exists earlier n,
       flags = earlier ++ true :: replicate n false /\
       EarlyStopping._wait self' = Z.of_nat n /\
       is_Some (EarlyStopping._best_weights self') /\
       Spec.best_reported_at_best_epoch metric calls
         (EarlyStopping._best_epoch self') (EarlyStopping._best_loss self')).
Proof.
  induction 1 as [|call v calls values Hv Hrest IH]; intros self trainer Hmetric.
  - exists self, trainer. split; [reflexivity|]. split; [apply same_config_refl|].
    split; [reflexivity|]. left. simpl. repeat split; lia.
  - rewrite run_epochs_cons.
    destruct (on_epoch_end_returns deepcopy self trainer (fst call) (snd call) v)
      as (self1 & trainer1 & Hstep & Hcfg & Hbest & Hcase);
      [exact deepcopy_succeeds | rewrite Hmetric; exact Hv |].
    rewrite Hstep.
    pose proof Hcfg as (Hm1 & His1 & Htol1 & Hpat1).
    destruct (IH self1 trainer1) as (self' & trainer' & Hrun & Hcfg' & Hbest' & Hflags);
      [congruence|].
    exists self', trainer'. split; [exact Hrun|].
    split; [eapply same_config_trans; eassumption|].
    rewrite His1, Htol1, Hbest in Hbest', Hflags.
    split; [exact Hbest'|].
    cbn [Spec.accepted]. cbv zeta in Hflags |- *.
    fold (improves self v) in Hcase |- *.
    destruct Hflags as [(Hall & Hwait & Hepoch & Hweights)
                       |(earlier & n & Hsplit & Hwait & Hsome & Hreported)].
    + destruct (improves self v) eqn:Himp.
      * right. exists [], (length (Spec.accepted (EarlyStopping._is_maximize self)
          (EarlyStopping._tol self)
          (Spec.gated_step (EarlyStopping._is_maximize self) (EarlyStopping._tol self)
             (EarlyStopping._best_loss self) v) values)).
        destruct Hcase as (Hw1 & He1 & Hs1).
        split; [simpl; f_equal; exact Hall|].
        split; [lia|].
        split; [rewrite Hweights; exact Hs1|].
        exists (snd call). split.
        -- rewrite Hepoch, He1. destruct call; simpl. apply list_elem_of_here.
        -- rewrite Hbest', (accepted_none_keeps _ _ _ _ Hall).
           unfold Spec.gated_step. fold (improves self v). rewrite Himp. exact Hv.
      * left. destruct Hcase as (Hw1 & He1 & Hs1).
        simpl. split; [f_equal; exact Hall|].
        repeat split; try congruence. lia.
    + right. exists (improves self v :: earlier), n.
      split; [simpl; f_equal; exact Hsplit|].
      split; [exact Hwait|]. split; [exact Hsome|].
      destruct Hreported as (logs & Hin & Hlook).
      exists logs. split; [apply list_elem_of_further, Hin | exact Hlook].
Qed.

End EarlyStoppingRuns.

(** ** The claims about EarlyStopping *)

Section EarlyStoppingClaims.

Context {Params : Type}.
Variable deepcopy : Params -> exn + Params.

Implicit Types (self : EarlyStopping.t Params) (trainer : Trainer.t Params).

(** A value within tolerance of the best one is not accepted, whichever way
    the monitor is configured. *)
Lemma within_tolerance_not_improved maximize tol best v :
  Spec.within_tolerance tol best v = true -> Spec.improved maximize tol best v = false.
Proof.
  unfold Spec.within_tolerance, Spec.improved. intros Hwithin.
  destruct maximize.
  - apply abs_leb_not_gt, Hwithin.
  - apply abs_leb_not_gt_opp, Hwithin.
Qed.

(** C1: for every sequence of epoch-end calls that report the metric with
    values v_1..v_n, made on a fresh monitor whose snapshot copies succeed,
    the first k calls return and leave as best value the extremum of
    v_1..v_k filtered by the tolerance-gated improvement rule, started from
    -inf when maximizing and +inf when minimizing; and a further call whose
    value is within tolerance of that best value leaves it as it is. *)
Theorem EarlyStopping_best_value_is_gated_extremum
    (metric : string) (is_maximize : bool) (tol : float) (patience : Z)
    trainer (calls : list (Z * Logs)) (values : list float) (k : nat) :
  (forall p, exists q, deepcopy p = inr q) ->
  reports metric calls values ->
  let '(self, trainer', outcome) :=
    EarlyStopping.run_epochs deepcopy (take k calls)
      (EarlyStopping.__init__ metric is_maximize tol patience, trainer) in
  outcome = Return /\
  EarlyStopping._best_loss self = Spec.gated_extremum is_maximize tol (take k values) /\
  forall epoch logs v,
    logs !! metric = Some (PyFloat v) ->
    Spec.within_tolerance tol (EarlyStopping._best_loss self) v = true ->
    EarlyStopping._best_loss
      (fst (fst (EarlyStopping.on_epoch_end deepcopy epoch (Some logs) (self, trainer'))))
    = EarlyStopping._best_loss self.
Proof.
  intros Hcopy Hreports.
  destruct (run_epochs_returns deepcopy Hcopy metric (take k calls) (take k values)
              (Forall2_take _ _ _ k Hreports)
              (EarlyStopping.__init__ metric is_maximize tol patience) trainer eq_refl)
    as (self & trainer' & Hrun & Hcfg & Hbest & _).
  rewrite Hrun. split; [reflexivity|]. split; [exact Hbest|].
  intros epoch logs v Hv Hwithin.
  destruct Hcfg as (Hmetric & Hmax & Htol & _). simpl in Hmetric, Hmax, Htol.
  rewrite (on_epoch_end_present deepcopy self trainer' epoch logs v)
    by (rewrite Hmetric; exact Hv).
  unfold improves. rewrite Htol.
  rewrite (within_tolerance_not_improved _ _ _ _ Hwithin).
  cbv zeta. destruct (_ >=? _); reflexivity.
Qed.

(** No hook of the monitor clears the stop flag. *)
Lemma hook_keeps_stop_flag (ev : event) (logs : option Logs)
    (w : EarlyStopping.t Params * Trainer.t Params) :
  Trainer._stop_training (snd w) = true ->
  Trainer._stop_training
    (snd (fst (Callback.hook (EarlyStopping.callback deepcopy) ev logs w))) = true.
Proof.
  destruct w as [self trainer]. intros Hset.
  destruct ev; simpl; try exact Hset.
  - unfold EarlyStopping.on_train_end.
    destruct (EarlyStopping._best_weights self); exact Hset.
  - unfold EarlyStopping.on_epoch_end.
    destruct logs as [logs|]; [|exact Hset].
    destruct (dict_get logs _); [exact Hset|].
    cbv zeta. destruct (_ || _).
    + destruct (deepcopy _); exact Hset.
    + destruct (_ >=? _); [reflexivity | exact Hset].
Qed.

Lemma hook_calls_keep_stop_flag (calls : list (event * option Logs))
    (w : EarlyStopping.t Params * Trainer.t Params) :
  Trainer._stop_training (snd w) = true ->
  Trainer._stop_training (snd (hook_calls deepcopy calls w)) = true.
Proof.
  revert w. unfold hook_calls.
  induction calls as [|call calls IH]; intros w Hset; [exact Hset|].
  simpl. apply IH. apply hook_keeps_stop_flag, Hset.
Qed.

(** C2: an epoch-end call whose metric is present and does not improve
    beyond tolerance returns with the wait counter incremented; when the
    counter has then reached patience, the trainer's stop flag is set and
    stopped_epoch is that epoch, and below patience the trainer and
    stopped_epoch are as before; once the flag is set, it stays set through
    every later sequence of calls of the monitor's hooks. *)
Theorem EarlyStopping_patience_sets_stop_flag self trainer (epoch : Z) (logs : Logs)
    (v : float) :
  logs !! EarlyStopping._early_stopping_metric self = Some (PyFloat v) ->
  improves self v = false ->
  let '(self', trainer', outcome) :=
    EarlyStopping.on_epoch_end deepcopy epoch (Some logs) (self, trainer) in
  outcome = Return /\
  EarlyStopping._wait self' = EarlyStopping._wait self + 1 /\
  (EarlyStopping._patience self <= EarlyStopping._wait self' ->
   Trainer._stop_training trainer' = true /\ EarlyStopping._stopped_epoch self' = epoch) /\
  (EarlyStopping._wait self' < EarlyStopping._patience self ->
   trainer' = trainer /\
   EarlyStopping._stopped_epoch self' = EarlyStopping._stopped_epoch self) /\
  forall later : list (event * option Logs),
    Trainer._stop_training trainer' = true ->
    Trainer._stop_training (snd (hook_calls deepcopy later (self', trainer'))) = true.
Proof.
  intros Hv Hno. rewrite (on_epoch_end_present deepcopy self trainer epoch logs v Hv), Hno.
  cbv zeta. destruct (Z.geb_spec (EarlyStopping._wait
    (EarlyStopping.set_wait self (EarlyStopping._wait self + 1)))
    (EarlyStopping._patience (EarlyStopping.set_wait self (EarlyStopping._wait self + 1))))
    as [Hge|Hlt]; simpl in *.
  - repeat split; try reflexivity; try lia.
    intros later Hset. apply hook_calls_keep_stop_flag. exact Hset.
  - repeat split; try reflexivity; try lia.
    intros later Hset. apply hook_calls_keep_stop_flag. exact Hset.
Qed.

Lemma not_in_replicate_false (n : nat) : true ∉ replicate n false.
Proof. intros Hin. apply elem_of_replicate in Hin. destruct Hin as [Hin _]. discriminate. Qed.

Lemma last_after_true (earlier : list bool) (n : nat) :
  last (earlier ++ true :: replicate n false) = Some true -> n = 0%nat.
Proof.
  rewrite last_app_cons. destruct n as [|n]; [reflexivity|].
  change (true :: replicate (S n) false) with ([true] ++ replicate (S n) false).
  rewrite replicate_S_end, app_assoc, last_snoc. discriminate.
Qed.

Lemma last_replicate_false (n : nat) : last (replicate n false) <> Some true.
Proof.
  destruct n as [|n]; [discriminate|].
  rewrite replicate_S_end, last_snoc. discriminate.
Qed.

(** With pairwise distinct epochs, one call at most was made at an epoch. *)
Lemma call_at_epoch_unique (calls : list (Z * Logs)) (epoch : Z) (logs1 logs2 : Logs) :
  NoDup (map fst calls) -> (epoch, logs1) ∈ calls -> (epoch, logs2) ∈ calls -> logs1 = logs2.
Proof.
  induction calls as [|[e l] calls IH]; intros Hnodup H1 H2.
  - inversion H1.
  - simpl in Hnodup. apply NoDup_cons in Hnodup as [Hfresh Hnodup].
    apply elem_of_cons in H1 as [H1|H1]; apply elem_of_cons in H2 as [H2|H2].
    + congruence.
    + exfalso. apply Hfresh. injection H1 as -> _.
      apply list_elem_of_fmap. exists (e, logs2). split; [reflexivity | exact H2].
    + exfalso. apply Hfresh. injection H2 as -> _.
      apply list_elem_of_fmap. exists (e, logs1). split; [reflexivity | exact H1].
    + apply IH; assumption.
Qed.

(** One flag per value. *)
Lemma accepted_length maximize tol best values :
  length (Spec.accepted maximize tol best values) = length values.
Proof.
  revert best. induction values as [|u values IHv]; intros best; [reflexivity|].
  simpl. rewrite IHv. reflexivity.
Qed.

(** C3, as amended: for every sequence of epoch-end calls that report the
    metric, made on a fresh monitor whose snapshot copies succeed, the calls
    return and the wait counter is the number of calls made since the last
    accepted improvement (since the start when none was accepted; zero right
    after an accepted one); once an improvement has been accepted, the
    stored best value is the value reported by a call at the stored best
    epoch, and by every such call when the epochs are pairwise distinct;
    as long as none has been accepted, the wait counter is the number of
    calls, the stored best value is the initial +inf or -inf, the stored
    best epoch is 0 and no snapshot is stored. *)
Theorem EarlyStopping_wait_counts_calls_since_improvement
    (metric : string) (is_maximize : bool) (tol : float) (patience : Z)
    trainer (calls : list (Z * Logs)) (values : list float) :
  (forall p, exists q, deepcopy p = inr q) ->
  reports metric calls values ->
  let flags := Spec.accepted is_maximize tol (Spec.initial_best is_maximize) values in
  let '(self, _, outcome) :=
    EarlyStopping.run_epochs deepcopy calls
      (EarlyStopping.__init__ metric is_maximize tol patience, trainer) in
  outcome = Return /\
  (exists n, EarlyStopping._wait self = Z.of_nat n /\ Spec.since_last_accepted flags n) /\
  (last flags = Some true -> EarlyStopping._wait self = 0) /\
  (true ∈ flags ->
   Spec.best_reported_at_best_epoch metric calls
     (EarlyStopping._best_epoch self) (EarlyStopping._best_loss self) /\
   (NoDup (map fst calls) ->
    forall logs, (EarlyStopping._best_epoch self, logs) ∈ calls ->
    logs !! metric = Some (PyFloat (EarlyStopping._best_loss self)))) /\
  (true ∉ flags ->
   EarlyStopping._wait self = Z.of_nat (length calls) /\
   EarlyStopping._best_loss self = Spec.initial_best is_maximize /\
   EarlyStopping._best_epoch self = 0 /\
   EarlyStopping._best_weights self = None).
Proof.
  intros Hcopy Hreports flags.
  pose proof (Forall2_length _ _ _ Hreports) as Hlength.
  pose proof (accepted_length is_maximize tol (Spec.initial_best is_maximize) values)
    as Hflags_length. fold flags in Hflags_length.
  destruct (run_epochs_returns deepcopy Hcopy metric calls values Hreports
              (EarlyStopping.__init__ metric is_maximize tol patience) trainer eq_refl)
    as (self & trainer' & Hrun & _ & Hbest & Hflags).
  rewrite Hrun. split; [reflexivity|].
  cbv zeta in Hflags. unfold EarlyStopping.__init__ in Hflags, Hbest.
  cbn [EarlyStopping._is_maximize EarlyStopping._tol EarlyStopping._best_loss
       EarlyStopping._wait EarlyStopping._best_epoch EarlyStopping._best_weights]
    in Hflags, Hbest.
  fold (Spec.initial_best is_maximize) in Hflags, Hbest. fold flags in Hflags.
  destruct Hflags as [(Hall & Hwait & Hepoch & Hweights)
                     |(earlier & n & Hsplit & Hwait & _ & Hreported)].
  - split; [exists (length flags); split; [lia | left; exact Hall]|].
    split; [|split].
    + intros Hlast. rewrite Hall in Hlast. destruct (last_replicate_false _ Hlast).
    + intros Hin. rewrite Hall in Hin. destruct (not_in_replicate_false _ Hin).
    + intros _. split; [lia|]. split; [|split; assumption].
      rewrite Hbest. apply accepted_none_keeps. exact Hall.
  - split; [exists n; split; [exact Hwait | right; exists earlier; exact Hsplit]|].
    split; [|split].
    + intros Hlast. rewrite Hsplit in Hlast. apply last_after_true in Hlast. lia.
    + intros _. split; [exact Hreported|].
      intros Hnodup logs Hin. destruct Hreported as (logs' & Hin' & Hlook).
      rewrite (call_at_epoch_unique calls _ logs logs' Hnodup Hin Hin'). exact Hlook.
    + intros Hnone. exfalso. apply Hnone. rewrite Hsplit.
      apply elem_of_app. right. apply elem_of_cons. left. reflexivity.
Qed.

(** C4: an epoch-end call whose record does not contain the metric returns
    and leaves the monitor (best value, best epoch, wait counter, snapshot,
    stopped epoch) and the trainer (stop flag included) as they were. *)
Theorem EarlyStopping_missing_metric_changes_nothing self trainer (epoch : Z) (logs : Logs) :
  logs !! EarlyStopping._early_stopping_metric self = None ->
  EarlyStopping.on_epoch_end deepcopy epoch (Some logs) (self, trainer)
  = (self, trainer, Return).
Proof.
  intros Hmissing. unfold EarlyStopping.on_epoch_end.
  rewrite (dict_get_missing _ _ Hmissing). reflexivity.
Qed.

(** C5: [on_train_end] returns, writes the monitor's best epoch and best
    value into the trainer's [_best_epoch] and [_best_cost], and replaces
    the live parameter state by the snapshot when there is one, whatever
    the stop flag and stopped epoch are; without a snapshot the live state
    stays.  On a fresh monitor run through calls that report the metric,
    there is a snapshot exactly when an improvement has been accepted. *)
Theorem EarlyStopping_train_end_restores_snapshot self trainer (logs : option Logs) :
  let '(self', trainer', outcome) := EarlyStopping.on_train_end logs (self, trainer) in
  (outcome = Return /\ self' = self) /\
  Trainer._best_epoch trainer' = EarlyStopping._best_epoch self /\
  Trainer._best_cost trainer' = EarlyStopping._best_loss self /\
  Trainer._network trainer' =
    match EarlyStopping._best_weights self with
    | Some weights => weights
    | None => Trainer._network trainer
    end /\
  Trainer._stop_training trainer' = Trainer._stop_training trainer /\
  forall metric is_maximize tol patience trainer0 (calls : list (Z * Logs)) values,
    (forall p, exists q, deepcopy p = inr q) ->
    reports metric calls values ->
    is_Some (EarlyStopping._best_weights
               (fst (fst (EarlyStopping.run_epochs deepcopy calls
                            (EarlyStopping.__init__ metric is_maximize tol patience,
                             trainer0)))))
    <-> true ∈ Spec.accepted is_maximize tol (Spec.initial_best is_maximize) values.
Proof.
  unfold EarlyStopping.on_train_end.
  split; [split; reflexivity|].
  split; [destruct (EarlyStopping._best_weights self); reflexivity|].
  split; [destruct (EarlyStopping._best_weights self); reflexivity|].
  split; [destruct (EarlyStopping._best_weights self); reflexivity|].
  split; [destruct (EarlyStopping._best_weights self); reflexivity|].
  intros metric is_maximize tol patience trainer0 calls values Hcopy Hreports.
  destruct (run_epochs_returns deepcopy Hcopy metric calls values Hreports
              (EarlyStopping.__init__ metric is_maximize tol patience) trainer0 eq_refl)
    as (self1 & trainer1 & Hrun & _ & _ & Hflags).
  rewrite Hrun. cbv zeta in Hflags. unfold EarlyStopping.__init__ in Hflags.
  cbn [EarlyStopping._is_maximize EarlyStopping._tol EarlyStopping._best_loss
       EarlyStopping._wait EarlyStopping._best_weights fst] in Hflags |- *.
  fold (Spec.initial_best is_maximize) in Hflags.
  destruct Hflags as [(Hall & _ & _ & Hnone)|(earlier & n & Hsplit & _ & Hsome & _)].
  - rewrite Hnone, Hall. split.
    + intros [w Hw]. discriminate.
    + intros Hin. destruct (not_in_replicate_false _ Hin).
  - split; [|intros _; exact Hsome].
    intros _. rewrite Hsplit. apply elem_of_app. right. apply list_elem_of_here.
Qed.

(** C7: in an improving epoch-end call the copy is made first and assigned
    once complete.  When the copy fails, its error is raised and the monitor
    (the stored snapshot, or its absence, included) and the trainer are as
    before; when it succeeds, the call returns and the snapshot is the
    completed copy. *)
Theorem EarlyStopping_snapshot_is_copied_then_assigned self trainer (epoch : Z)
    (logs : Logs) (v : float) :
  logs !! EarlyStopping._early_stopping_metric self = Some (PyFloat v) ->
  improves self v = true ->
  (forall e, deepcopy (Trainer._network trainer) = inl e ->
     EarlyStopping.on_epoch_end deepcopy epoch (Some logs) (self, trainer)
     = (self, trainer, Raise e)) /\
  (forall weights, deepcopy (Trainer._network trainer) = inr weights ->
     let '(self', trainer', outcome) :=
       EarlyStopping.on_epoch_end deepcopy epoch (Some logs) (self, trainer) in
     outcome = Return /\ EarlyStopping._best_weights self' = Some weights).
Proof.
  intros Hv Himp.
  rewrite (on_epoch_end_present deepcopy self trainer epoch logs v Hv), Himp.
  split.
  - intros e ->. reflexivity.
  - intros weights ->. split; reflexivity.
Qed.

End EarlyStoppingClaims.

(** ** Concrete runs of the monitor *)

Section EarlyStoppingExamples.

Import Scenario.

Lemma copy_ok_succeeds : forall p, exists q, copy_ok p = inr q.
Proof. intros p. exists p. reflexivity. Defined.

Lemma epoch_calls_report (metric : string) (values : list float) :
  reports metric (epoch_calls metric values) values.
Proof.
  unfold reports, epoch_calls. generalize Z.of_nat.
  induction values as [|v values IH]; intros numbering; simpl.
  - constructor.
  - constructor.
    + simpl. apply lookup_singleton_eq.
    + apply (IH (numbering ∘ S)).
Defined.

(** C8: scenario A (patience=2, tol=0.0, minimizing, values 1.0, 1.2, 1.3,
    1.25, 1.4 at epochs 0..4): the best value is 1.0 from epoch 0 on with
    best epoch 0, the wait counter is 1 after epoch 1 and reaches 2 at epoch
    2, where the stop flag is set for the first time and stopped_epoch is 2.
    Scenario B (patience=3, tol=0.01, maximizing, values 0.5, 0.505, 0.52,
    0.60): epoch 1 is no improvement (wait 1, best 0.5), epoch 2 is one
    (wait 0, best 0.52, best epoch 2), and so is epoch 3 (best 0.60). *)
Theorem EarlyStopping_scenarios_A_and_B :
  after_each_call monitor_A (epoch_calls "loss" values_A) =
    [ observed 1.0 0 0 0 false;
      observed 1.0 0 1 0 false;
      observed 1.0 0 2 2 true;
      observed 1.0 0 3 3 true;
      observed 1.0 0 4 4 true ]%float /\
  after_each_call monitor_B (epoch_calls "acc" values_B) =
    [ observed 0.5 0 0 0 false;
      observed 0.5 0 1 0 false;
      observed 0.52 2 0 0 false;
      observed 0.60 3 0 0 false ]%float.
Proof. split; vm_compute; reflexivity. Qed.

Lemma nan_is_not_infinity : PyFloat nan <> PyFloat infinity.
Proof.
  intros Heq.
  apply (f_equal (fun x => match x with PyFloat f => PrimFloat.is_nan f | PyNone => false end))
    in Heq.
  vm_compute in Heq. discriminate.
Qed.

(** C3, as stated, fails when the first value is NaN (a loss that has
    diverged): the call returns and counts as one without improvement, the
    stored best epoch is still 0 and the stored best value still +inf, while
    the value reported at epoch 0 is NaN. *)
Lemma EarlyStopping_best_value_not_reported_at_best_epoch :
  let calls := epoch_calls "loss" [nan] in
  let '(self, _, outcome) :=
    EarlyStopping.run_epochs copy_ok calls
      (EarlyStopping.__init__ "loss" false 0%float 5, trainer0) in
  outcome = Return /\
  EarlyStopping._wait self = 1 /\
  EarlyStopping._best_epoch self = 0 /\
  ~ Spec.best_reported_at_best_epoch "loss" calls
      (EarlyStopping._best_epoch self) (EarlyStopping._best_loss self).
Proof.
  cbv zeta.
  replace (EarlyStopping.run_epochs copy_ok (epoch_calls "loss" [nan])
             (EarlyStopping.__init__ "loss" false 0%float 5, trainer0))
    with (EarlyStopping.set_wait (Params := list float)
            (EarlyStopping.__init__ "loss" false 0%float 5) 1,
          trainer0, Return)
    by (vm_compute; reflexivity).
  split; [reflexivity|]. split; [reflexivity|]. split; [reflexivity|].
  intros (logs & Hin & Hlook). unfold epoch_calls in Hin. simpl in Hin, Hlook.
  apply list_elem_of_singleton in Hin. apply (f_equal snd) in Hin. simpl in Hin.
  subst logs. rewrite lookup_singleton_eq in Hlook.
  apply (f_equal (from_option id PyNone)) in Hlook. simpl in Hlook.
  exact (nan_is_not_infinity Hlook).
Qed.

(** Scenario A through its first three epochs, as an instance of C1. *)
Lemma EarlyStopping_best_value_witness :
  (forall p, exists q, copy_ok p = inr q) /\
  reports "loss" (epoch_calls "loss" values_A) values_A /\
  EarlyStopping._best_loss
    (fst (fst (EarlyStopping.run_epochs copy_ok (take 3 (epoch_calls "loss" values_A))
                 (EarlyStopping.__init__ "loss" false 0%float 2, trainer0))))
  = Spec.gated_extremum false 0%float (take 3 values_A).
Proof.
  split; [exact copy_ok_succeeds|]. split; [apply epoch_calls_report|].
  pose proof (EarlyStopping_best_value_is_gated_extremum copy_ok "loss" false 0%float 2
                trainer0 (epoch_calls "loss" values_A) values_A 3
                copy_ok_succeeds (epoch_calls_report "loss" values_A)) as H.
  destruct (EarlyStopping.run_epochs copy_ok (take 3 (epoch_calls "loss" values_A))
              (EarlyStopping.__init__ "loss" false 0%float 2, trainer0))
    as [[self trainer'] outcome].
  exact (proj1 (proj2 H)).
Defined.

(** Scenario A at epoch 1, as an instance of C2: 1.2 after a best of 1.0. *)
Lemma EarlyStopping_patience_witness :
  let self := EarlyStopping.record_improvement monitor_A [] 1.0%float 0 in
  let logs : Logs := {[ "loss" := PyFloat 1.2 ]} in
  logs !! EarlyStopping._early_stopping_metric self = Some (PyFloat 1.2) /\
  improves self 1.2%float = false /\
  EarlyStopping._wait
    (fst (fst (EarlyStopping.on_epoch_end copy_ok 1 (Some logs) (self, trainer0))))
  = EarlyStopping._wait self + 1.
Proof.
  cbv zeta.
  assert (Hv : ({[ "loss" := PyFloat 1.2 ]} : Logs)
               !! EarlyStopping._early_stopping_metric
                    (EarlyStopping.record_improvement monitor_A [] 1.0%float 0)
               = Some (PyFloat 1.2))
    by (vm_compute; reflexivity).
  assert (Hno : improves (EarlyStopping.record_improvement monitor_A [] 1.0%float 0)
                  1.2%float = false)
    by (vm_compute; reflexivity).
  split; [exact Hv|]. split; [exact Hno|].
  pose proof (EarlyStopping_patience_sets_stop_flag copy_ok
                (EarlyStopping.record_improvement monitor_A [] 1.0%float 0)
                trainer0 1 {[ "loss" := PyFloat 1.2 ]} 1.2%float Hv Hno) as H.
  destruct (EarlyStopping.on_epoch_end copy_ok 1 (Some {[ "loss" := PyFloat 1.2 ]})
              (EarlyStopping.record_improvement monitor_A [] 1.0%float 0, trainer0))
    as [[self' trainer'] outcome].
  exact (proj1 (proj2 H)).
Defined.

(** Scenario B, as an instance of the amended C3. *)
Lemma EarlyStopping_wait_counts_witness :
  (forall p, exists q, copy_ok p = inr q) /\
  reports "acc" (epoch_calls "acc" values_B) values_B /\
  exists n,
    EarlyStopping._wait
      (fst (fst (EarlyStopping.run_epochs copy_ok (epoch_calls "acc" values_B)
                   (EarlyStopping.__init__ "acc" true 0.01%float 3, trainer0))))
    = Z.of_nat n /\
    Spec.since_last_accepted
      (Spec.accepted true 0.01%float (Spec.initial_best true) values_B) n.
Proof.
  split; [exact copy_ok_succeeds|]. split; [apply epoch_calls_report|].
  pose proof (EarlyStopping_wait_counts_calls_since_improvement copy_ok "acc" true
                0.01%float 3 trainer0 (epoch_calls "acc" values_B) values_B
                copy_ok_succeeds (epoch_calls_report "acc" values_B)) as H.
  cbv zeta in H.
  destruct (EarlyStopping.run_epochs copy_ok (epoch_calls "acc" values_B)
              (EarlyStopping.__init__ "acc" true 0.01%float 3, trainer0))
    as [[self trainer'] outcome].
  exact (proj1 (proj2 H)).
Defined.

(** An epoch whose record holds another metric only, as an instance of C4. *)
Lemma EarlyStopping_missing_metric_witness :
  let logs : Logs := {[ "acc" := PyFloat 0.5 ]} in
  logs !! EarlyStopping._early_stopping_metric monitor_A = None /\
  EarlyStopping.on_epoch_end copy_ok 3 (Some logs) (monitor_A, trainer0)
  = (monitor_A, trainer0, Return).
Proof.
  cbv zeta.
  assert (Hmissing : ({[ "acc" := PyFloat 0.5 ]} : Logs)
                     !! EarlyStopping._early_stopping_metric monitor_A = None)
    by (vm_compute; reflexivity).
  split; [exact Hmissing|].
  exact (EarlyStopping_missing_metric_changes_nothing copy_ok monitor_A trainer0 3
           {[ "acc" := PyFloat 0.5 ]} Hmissing).
Defined.

(** Scenario B at train end, as an instance of C5: the snapshot taken at
    epoch 3 replaces the live state, and it exists because an improvement
    was accepted. *)
Lemma EarlyStopping_train_end_witness :
  let self := EarlyStopping.record_improvement monitor_B [0.75%float] 0.60%float 3 in
  Trainer._network (snd (fst (EarlyStopping.on_train_end None (self, trainer0))))
  = [0.75%float] /\
  (is_Some (EarlyStopping._best_weights
              (fst (fst (EarlyStopping.run_epochs copy_ok (epoch_calls "acc" values_B)
                           (EarlyStopping.__init__ "acc" true 0.01%float 3, trainer0)))))
   <-> true ∈ Spec.accepted true 0.01%float (Spec.initial_best true) values_B).
Proof.
  cbv zeta.
  pose proof (EarlyStopping_train_end_restores_snapshot copy_ok
                (EarlyStopping.record_improvement monitor_B [0.75%float] 0.60%float 3)
                trainer0 None) as H.
  destruct (EarlyStopping.on_train_end None
              (EarlyStopping.record_improvement monitor_B [0.75%float] 0.60%float 3,
               trainer0))
    as [[self' trainer'] outcome].
  destruct H as (_ & _ & _ & Hnetwork & _ & Hsnapshot).
  split; [exact Hnetwork|].
  exact (Hsnapshot "acc" true 0.01%float 3 trainer0 (epoch_calls "acc" values_B) values_B
           copy_ok_succeeds (epoch_calls_report "acc" values_B)).
Defined.

(** A first epoch whose copy runs out of memory, as an instance of C7. *)
Lemma EarlyStopping_failed_copy_witness :
  let logs : Logs := {[ "loss" := PyFloat 1.0 ]} in
  logs !! EarlyStopping._early_stopping_metric monitor_A = Some (PyFloat 1.0) /\
  improves monitor_A 1.0%float = true /\
  copy_fails (Trainer._network trainer0) = inl MemoryError /\
  EarlyStopping.on_epoch_end copy_fails 0 (Some logs) (monitor_A, trainer0)
  = (monitor_A, trainer0, Raise MemoryError).
Proof.
  cbv zeta.
  assert (Hv : ({[ "loss" := PyFloat 1.0 ]} : Logs)
               !! EarlyStopping._early_stopping_metric monitor_A = Some (PyFloat 1.0))
    by (vm_compute; reflexivity).
  assert (Himp : improves monitor_A 1.0%float = true) by (vm_compute; reflexivity).
  split; [exact Hv|]. split; [exact Himp|]. split; [reflexivity|].
  exact (proj1 (EarlyStopping_snapshot_is_copied_then_assigned copy_fails monitor_A
                  trainer0 0 {[ "loss" := PyFloat 1.0 ]} 1.0%float Hv Himp)
           MemoryError eq_refl).
Defined.

End EarlyStoppingExamples.

(** ** The claims about CallbackContainer *)

(** Each forwarding method is the loop over the hooks of its event. *)
Lemma forward_loop {W : Type} (self : CallbackContainer.t W) (ev : event)
    (logs : option Logs) :
  CallbackContainer.forward self ev logs =
  CallbackContainer.for_each
    (map (fun cb => Callback.hook cb ev (Some (CallbackContainer.logs_or_empty logs)))
         (CallbackContainer._callbacks self)).
Proof. destruct ev; reflexivity. Qed.

Section ContainerClaims.

Context {W : Type}.

Implicit Types (callbacks : list (Callback.t W)) (w : W) (journal : list Probe.entry).

Lemma for_each_app (calls1 calls2 : list (W -> W * completion)) w :
  CallbackContainer.for_each (calls1 ++ calls2) w =
  match CallbackContainer.for_each calls1 w with
  | (w1, Return) => CallbackContainer.for_each calls2 w1
  | (w1, Raise e) => (w1, Raise e)
  end.
Proof.
  revert w. induction calls1 as [|call calls1 IH]; intros w; simpl; [reflexivity|].
  destruct (call w) as [w1 [|e]]; [apply IH | reflexivity].
Qed.

Lemma probe_hook (id : nat) (cb : Callback.t W) (ev : event) (logs : option Logs) :
  Callback.hook (Probe.probe id cb) ev logs
  = Probe.noting id ev logs (Callback.hook cb ev logs).
Proof. destruct ev; reflexivity. Qed.

Lemma probes_cons (first : nat) (cb : Callback.t W) callbacks :
  Probe.probes first (cb :: callbacks)
  = Probe.probe first cb :: Probe.probes (S first) callbacks.
Proof.
  unfold Probe.probes. simpl. rewrite Nat.add_0_r. f_equal.
  apply imap_ext. intros i x _. simpl. f_equal. lia.
Qed.

Lemma entries_S (first n : nat) (ev : event) (logs : option Logs) :
  Probe.entries first (S n) ev logs
  = Probe.mk first ev logs :: Probe.entries (S first) n ev logs.
Proof. reflexivity. Qed.

(** The journal after the loop over probes: the callbacks that were called
    are an initial stretch of the list, each noted once, in list order. *)
Lemma probes_journal callbacks (ev : event) (logs : option Logs) :
  forall (first : nat) journal w,
  let '(journal', w', outcome) :=
    CallbackContainer.for_each
      (map (fun cb => Callback.hook cb ev logs) (Probe.probes first callbacks))
      (journal, w) in
  (w', outcome)
    = CallbackContainer.for_each (map (fun cb => Callback.hook cb ev logs) callbacks) w /\
  exists n,
    (n <= length callbacks)%nat /\
    journal' = journal ++ Probe.entries first n ev logs /\
    (outcome = Return -> n = length callbacks).
Proof.
  induction callbacks as [|cb callbacks IH]; intros first journal w.
  - simpl. split; [reflexivity|]. exists 0%nat. simpl. rewrite app_nil_r. auto.
  - rewrite probes_cons. simpl. rewrite probe_hook. unfold Probe.noting.
    destruct (Callback.hook cb ev logs w) as [w1 [|e]].
    + specialize (IH (S first) (journal ++ [Probe.mk first ev logs]) w1).
      destruct (CallbackContainer.for_each _ (journal ++ [Probe.mk first ev logs], w1))
        as [[journal' w'] outcome].
      destruct IH as (Hsame & n & Hle & Hjournal & Hall).
      split; [exact Hsame|]. exists (S n). split; [simpl; lia|].
      split; [rewrite Hjournal, entries_S, <- app_assoc; reflexivity|].
      intros Hret. simpl. f_equal. apply Hall, Hret.
    + split; [reflexivity|]. exists 1%nat. split; [simpl; lia|].
      split; [reflexivity|]. discriminate.
Qed.

(** C6: for each of the six events, the forwarding method hands the
    caller's record on as it is, replaces a missing one by the empty record,
    and calls the event's hook of the attached callbacks in list order, each
    once, before it returns.  Seen through probes: the state and outcome are
    those of the unobserved container, the journal grows by the entries of
    an initial stretch of the callbacks in order, each with the caller's
    record [d] or, for None, the empty record, and by the entries of all of
    them when the method returns.  With no callback the method returns and
    changes nothing, and a callback attached with [append] is called after
    those already there. *)
Theorem CallbackContainer_forwards_in_attach_order callbacks (ev : event)
    (logs : option Logs) journal w :
  let record : option Logs := match logs with Some d => Some d | None => Some ∅ end in
  let '(journal', w', outcome) :=
    CallbackContainer.forward (CallbackContainer.__init__ (Probe.probes 0 callbacks))
      ev logs (journal, w) in
  ((w', outcome) = CallbackContainer.forward (CallbackContainer.__init__ callbacks) ev logs w /\
   exists n,
     (n <= length callbacks)%nat /\
     journal' = journal ++ Probe.entries 0 n ev record /\
     (outcome = Return -> n = length callbacks)) /\
  ((forall d, logs = Some d -> record = Some d) /\ (logs = None -> record = Some ∅)) /\
  CallbackContainer.forward (CallbackContainer.__init__ []) ev logs w = (w, Return) /\
  forall callback,
    CallbackContainer.forward
      (CallbackContainer.append (CallbackContainer.__init__ callbacks) callback) ev logs w
    = match CallbackContainer.forward (CallbackContainer.__init__ callbacks) ev logs w with
      | (w1, Return) => Callback.hook callback ev record w1
      | (w1, Raise e) => (w1, Raise e)
      end.
Proof.
  intros record.
  assert (Hrecord : Some (CallbackContainer.logs_or_empty logs) = record)
    by (destruct logs; reflexivity).
  rewrite !forward_loop, Hrecord. simpl.
  pose proof (probes_journal callbacks ev record 0 journal w) as Hprobes.
  destruct (CallbackContainer.for_each _ (journal, w)) as [[journal' w'] outcome].
  split; [exact Hprobes|].
  split; [split; [intros d ->; reflexivity | intros ->; reflexivity]|].
  split; [reflexivity|].
  intros callback. rewrite forward_loop, Hrecord. simpl.
  rewrite map_app, for_each_app. simpl.
  destruct (CallbackContainer.for_each _ w) as [w1 [|e]]; [|reflexivity].
  destruct (Callback.hook callback ev record w1) as [w2 [|e]]; reflexivity.
Qed.

End ContainerClaims.

(** ** One call of [History.on_batch_end] *)

Section HistorySteps.

Implicit Types (self : History.t) (logs : Logs) (now : float) (batch : Z).

(** A call that returns has read a number for the batch size and the loss,
    found both accumulators assigned, and stored the new average and count. *)
Lemma on_batch_end_returned now batch logs self self' (b l : float) :
  logs !! "batch_size" = Some (PyFloat b) ->
  logs !! "loss" = Some (PyFloat l) ->
  History.on_batch_end now batch (Some logs) self = (self', Return) ->
  exists seen epoch_loss,
    History._samples_seen self = Some seen /\
    History._epoch_loss self = Some epoch_loss /\
    History._samples_seen self' = Some (seen + b)%float /\
    History._epoch_loss self' = Some ((seen * epoch_loss + b * l) / (seen + b))%float.
Proof.
  intros Hb Hl. unfold History.on_batch_end, History.batch_update, dict_getitem.
  rewrite Hb, Hl. simpl.
  destruct (logs !! "epoch"); simpl; [|discriminate].
  destruct (logs !! "max_epochs"); simpl; [|discriminate].
  destruct (logs !! "steps"); simpl; [|discriminate].
  destruct (logs !! "lr") as [lr|]; simpl; [|discriminate].
  destruct (History._samples_seen self) as [seen|]; simpl; [|discriminate].
  destruct (History._epoch_loss self) as [epoch_loss|]; simpl; [|discriminate].
  unfold float_truediv. destruct (_ =? _)%float; simpl; [discriminate|].
  intros Hcall. injection Hcall as <- _. simpl.
  exists seen, epoch_loss. repeat split; reflexivity.
Qed.

Lemma run_batches_cons now call (calls : list (Z * Logs)) self :
  History.run_batches now (call :: calls) self =
  match History.on_batch_end now (fst call) (Some (snd call)) self with
  | (self1, Return) => History.run_batches now calls self1
  | (self1, Raise e) => (self1, Raise e)
  end.
Proof. reflexivity. Qed.

(** The running average after a run of batch-end calls that returns. *)
Lemma run_batches_returned now (calls : list (Z * Logs)) (batches : list (float * float)) :
  carries calls batches ->
  forall self self' seen epoch_loss,
  History._samples_seen self = Some seen ->
  History._epoch_loss self = Some epoch_loss ->
  History.run_batches now calls self = (self', Return) ->
  History._samples_seen self'
    = Some (fst (Spec.running_average_float (seen, epoch_loss) batches)) /\
  History._epoch_loss self'
    = Some (snd (Spec.running_average_float (seen, epoch_loss) batches)).
Proof.
  unfold carries.
  induction 1 as [|call [b l] calls batches [Hb Hl] Hrest IH];
    intros self self' seen epoch_loss Hseen Hloss Hrun.
  - unfold History.run_batches in Hrun. simpl in Hrun.
    apply (f_equal fst) in Hrun. simpl in Hrun. subst self'. simpl. auto.
  - rewrite run_batches_cons in Hrun.
    destruct (History.on_batch_end now (fst call) (Some (snd call)) self)
      as [self1 [|e]] eqn:Hcall; [|discriminate].
    destruct (on_batch_end_returned _ _ _ _ _ b l Hb Hl Hcall)
      as (seen0 & loss0 & Hseen0 & Hloss0 & Hseen1 & Hloss1).
    rewrite Hseen in Hseen0. rewrite Hloss in Hloss0.
    apply (f_equal (default seen)) in Hseen0.
    apply (f_equal (default epoch_loss)) in Hloss0. simpl in Hseen0, Hloss0.
    subst seen0 loss0.
    apply (IH self1 self' _ _ Hseen1 Hloss1 Hrun).
Qed.

End HistorySteps.

(** ** The running average in exact arithmetic *)

Section ExactAverage.

Local Open Scope Q_scope.

Lemma total_size_nonneg (batches : list (Q * Q)) :
  Forall (fun item => 0 < fst item) batches -> 0 <= Spec.total_size batches.
Proof.
  induction 1 as [|[b l] rest Hb Hrest IH]; simpl in *.
  - apply Qle_refl.
  - apply Qle_trans with (0 + 0); [apply Qle_refl|].
    apply Qplus_le_compat; [apply Qlt_le_weak, Hb | exact IH].
Qed.

Lemma total_size_pos (batches : list (Q * Q)) :
  batches <> [] -> Forall (fun item => 0 < fst item) batches -> 0 < Spec.total_size batches.
Proof.
  intros Hne Hpos. destruct Hpos as [|[b l] rest Hb Hrest]; [congruence|]. simpl in *.
  apply Qlt_le_trans with (b + 0).
  - rewrite Qplus_0_r. exact Hb.
  - apply Qplus_le_compat; [apply Qle_refl | apply total_size_nonneg, Hrest].
Qed.

(** After any number of steps the count is the sum of the sizes, and the
    average times the count is the sum of the weighted losses. *)
Lemma running_average_Q_invariant (batches : list (Q * Q)) :
  forall seen epoch_loss : Q,
  0 <= seen ->
  Forall (fun item => 0 < fst item) batches ->
  fst (Spec.running_average_Q (seen, epoch_loss) batches)
    == seen + Spec.total_size batches /\
  snd (Spec.running_average_Q (seen, epoch_loss) batches)
    * fst (Spec.running_average_Q (seen, epoch_loss) batches)
    == seen * epoch_loss + Spec.weighted_sum batches.
Proof.
  induction batches as [|[b l] rest IH]; intros seen epoch_loss Hseen Hpos.
  - simpl. split; ring.
  - apply Forall_cons in Hpos as [Hb Hrest]. simpl in Hb.
    assert (Hsum : 0 < seen + b).
    { apply Qlt_le_trans with (0 + b).
      - rewrite Qplus_0_l. exact Hb.
      - apply Qplus_le_compat; [exact Hseen | apply Qle_refl]. }
    destruct (IH (seen + b) ((seen * epoch_loss + b * l) / (seen + b))
                 (Qlt_le_weak _ _ Hsum) Hrest) as [Hcount Hprod].
    change (Spec.running_average_Q (seen, epoch_loss) ((b, l) :: rest))
      with (Spec.running_average_Q
              (seen + b, (seen * epoch_loss + b * l) / (seen + b)) rest).
    split.
    + rewrite Hcount. simpl. ring.
    + rewrite Hprod. simpl. field.
      intros Hzero. rewrite Hzero in Hsum. exact (Qlt_irrefl 0 Hsum).
Qed.

Lemma running_average_Q_is_weighted_average (batches : list (Q * Q)) (start : Q) :
  batches <> [] ->
  Forall (fun item => 0 < fst item) batches ->
  snd (Spec.running_average_Q (0, start) batches) == Spec.weighted_average batches.
Proof.
  intros Hne Hpos.
  destruct (running_average_Q_invariant batches 0 start (Qle_refl 0) Hpos)
    as [Hcount Hprod].
  pose proof (total_size_pos batches Hne Hpos) as Htotal.
  rewrite Hcount, Qplus_0_l in Hprod.
  unfold Spec.weighted_average.
  assert (Hnz : ~ Spec.total_size batches == 0).
  { intros Hzero. rewrite Hzero in Htotal. exact (Qlt_irrefl 0 Htotal). }
  apply (Qmult_inj_r _ _ (Spec.total_size batches) Hnz).
  rewrite Hprod. field. exact Hnz.
Qed.

End ExactAverage.

(** ** The claims about History *)

Section HistoryClaims.

Import Scenario.

Implicit Types (self : History.t) (logs : Logs) (now : float).

(** The term a finite stored loss contributes to the first update of an
    epoch, [0. * epoch_loss], is a zero. *)
Lemma stale_loss_term_is_zero (e0 : float) (q0 : Q) :
  Spec.Q_of_float e0 = Some q0 -> exists s, Prim2SF (0 * e0)%float = S754_zero s.
Proof.
  unfold Spec.Q_of_float. intros Hfinite. rewrite mul_spec.
  replace (Prim2SF 0%float) with (S754_zero false) by (vm_compute; reflexivity).
  destruct (Prim2SF e0) as [s|s| |s m e]; try discriminate; simpl; eauto.
Qed.

Lemma batch_calls_carry (batches : list (float * float)) :
  carries (batch_calls batches) batches.
Proof.
  unfold carries, batch_calls. generalize Z.of_nat.
  induction batches as [|[b l] batches IH]; intros numbering; simpl.
  - constructor.
  - constructor.
    + split; vm_compute; reflexivity.
    + apply (IH (numbering ∘ S)).
Defined.

(** X19: the stored loss is not assigned at epoch start.  When it is an
    infinity or NaN, the first batch-end call of the next epoch that returns
    stores NaN, whatever the batch is: 0. * epoch_loss is then NaN, not a
    zero. *)
Lemma History_nonfinite_loss_outlives_epoch_start now self (epoch batch : Z)
    (logs0 : option Logs) logs self' (e0 b l : float) :
  History._epoch_loss self = Some e0 ->
  Spec.Q_of_float e0 = None ->
  logs !! "batch_size" = Some (PyFloat b) ->
  logs !! "loss" = Some (PyFloat l) ->
  History.on_batch_end now batch (Some logs) (fst (History.on_epoch_begin epoch logs0 self))
    = (self', Return) ->
  History._epoch_loss self' = Some nan.
Proof.
  intros Hloss Hnonfinite Hb Hl Hcall.
  destruct (on_batch_end_returned _ _ _ _ _ b l Hb Hl Hcall)
    as (seen & loss & Hseen & Hloss0 & _ & Hstored).
  simpl in Hseen, Hloss0. rewrite Hloss in Hloss0.
  apply (f_equal (default 0%float)) in Hseen. apply (f_equal (default e0)) in Hloss0.
  simpl in Hseen, Hloss0. subst seen loss.
  rewrite Hstored. f_equal. apply Prim2SF_inj.
  rewrite div_spec, add_spec, mul_spec.
  replace (Prim2SF 0%float) with (S754_zero false) by (vm_compute; reflexivity).
  replace (Prim2SF nan) with S754_nan by (vm_compute; reflexivity).
  unfold Spec.Q_of_float in Hnonfinite.
  destruct (Prim2SF e0) as [s|s| |s m e]; try discriminate; reflexivity.
Qed.

(** C9: the stored epoch loss is not reset at epoch start.  [on_epoch_begin]
    sets the count of samples seen, the epoch's metrics and the two costs to
    0 and leaves [_epoch_loss], which only [on_train_begin] sets to 0.
    Epoch 0 with one batch of 4 samples and loss 1e308 returns and stores an
    infinity (4 * 1e308 overflows).  After [on_epoch_begin] of epoch 1 the
    count is 0 and the stored loss is still that infinity, and the epoch's
    one batch of 4 samples with loss 1 returns and stores NaN, where the
    weighted average of the epoch's batches is 1: the value that the same
    epoch stores on a recorder whose stored loss is the 0 of
    [on_train_begin].  With ordinary values: after an epoch that stored 0.5,
    [on_epoch_begin] leaves 0.5 stored, and an epoch without batches
    publishes the loss 0.5 at its end. *)
Theorem History_epoch_loss_is_not_reset :
  let '(first, outcome0) := epoch_of_batches 0 [(4, 1e308)]%float recorder0 in
  let started := fst (History.on_epoch_begin 1 (Some ∅) first) in
  let '(second, outcome1) := epoch_of_batches 1 [(4, 1)]%float first in
  let half := fst (epoch_of_batches 0 [(1, 0.5)]%float recorder0) in
  let idle := fst (History.on_epoch_begin 1 (Some ∅) half) in
  (History._epoch_loss recorder0 = Some 0%float /\
   outcome0 = Return /\ History._epoch_loss first = Some infinity) /\
  (History._samples_seen started = Some 0%float /\
   History._epoch_metrics started = Some {[ "loss" := 0%float ]} /\
   History._epoch_loss started = Some infinity) /\
  (outcome1 = Return /\ History._epoch_loss second = Some nan) /\
  History._epoch_loss (fst (epoch_of_batches 1 [(4, 1)]%float recorder0)) = Some 1%float /\
  (History._epoch_loss half = Some 0.5%float /\
   History._epoch_loss idle = Some 0.5%float /\
   History.on_epoch_end 1 (Some ∅) idle
   = (History.mk (History._verbose idle) (History._history idle)
        (History._start_time idle) (Some 0.5%float) (Some {[ "loss" := 0.5%float ]})
        (Some 0%float) (Some 0%float) (Some 0%float), Return)).
Proof.
  destruct (epoch_of_batches 0 [(4, 1e308)]%float recorder0) as [first outcome0] eqn:Hfirst.
  assert (Hfirst' : first = fst (epoch_of_batches 0 [(4, 1e308)]%float recorder0))
    by (rewrite Hfirst; reflexivity).
  assert (Houtcome0 : outcome0 = snd (epoch_of_batches 0 [(4, 1e308)]%float recorder0))
    by (rewrite Hfirst; reflexivity).
  clear Hfirst. subst first outcome0.
  destruct (epoch_of_batches 1 [(4, 1)]%float _) as [second outcome1] eqn:Hsecond.
  apply (f_equal (fun r => (History._epoch_loss (fst r), snd r))) in Hsecond.
  vm_compute in Hsecond. apply pair_equal_spec in Hsecond as [Hloss Houtcome].
  cbv zeta.
  split; [repeat split; vm_compute; reflexivity|].
  split; [repeat split; vm_compute; reflexivity|].
  split; [split; [symmetry; exact Houtcome | symmetry; exact Hloss]|].
  split; [vm_compute; reflexivity|].
  repeat split; vm_compute; reflexivity.
Qed.

End HistoryClaims.

(** ** The keys History requires *)

Section HistoryKeys.

Import Scenario.

Implicit Types (self : History.t) (logs : Logs) (now : float).

Ltac split_lookups logs :=
  repeat match goal with
         | |- context [match logs !! ?key with _ => _ end] =>
           let H := fresh "Hkey" in destruct (logs !! key) eqn:H
         | H : context [match logs !! ?key with _ => _ end] |- _ =>
           let H := fresh "Hkey" in destruct (logs !! key) eqn:H
         end.

Lemma first_missing_is_missing logs (missing : string) :
  Spec.first_missing logs = Some missing ->
  missing ∈ Spec.required_batch_keys /\ logs !! missing = None.
Proof.
  unfold Spec.first_missing. intros Hfind. apply List.find_some in Hfind as [Hin Hnone].
  split; [apply list_elem_of_In, Hin|]. destruct (logs !! missing); [discriminate|reflexivity].
Qed.

Lemma some_missing_first_missing logs (key : string) :
  key ∈ Spec.required_batch_keys -> logs !! key = None ->
  exists missing, Spec.first_missing logs = Some missing.
Proof.
  intros Hin Hnone. destruct (Spec.first_missing logs) as [missing|] eqn:Hfind; [eauto|].
  exfalso. unfold Spec.first_missing in Hfind.
  apply list_elem_of_In in Hin.
  pose proof (List.find_none _ _ Hfind key Hin) as Hpresent. simpl in Hpresent.
  rewrite Hnone in Hpresent. discriminate.
Qed.

(** The reads of the six keys come first, in the order of the source: the
    first key that is missing is the one the [KeyError] names. *)
Lemma batch_update_missing logs self (missing : string) :
  Spec.first_missing logs = Some missing ->
  History.batch_update logs self = inl (KeyError missing).
Proof.
  unfold Spec.first_missing, Spec.required_batch_keys, History.batch_update, dict_getitem.
  simpl. intros Hfind. split_lookups logs; simpl;
    try discriminate; try (injection Hfind as <-; reflexivity).
Qed.

Lemma batch_update_no_KeyError logs self (key : string) :
  Spec.first_missing logs = None ->
  History.batch_update logs self <> inl (KeyError key).
Proof.
  unfold Spec.first_missing, Spec.required_batch_keys, History.batch_update, dict_getitem.
  simpl. intros Hfind. split_lookups logs; simpl; try discriminate.
  destruct (History._samples_seen self); simpl; [|discriminate].
  destruct (History._epoch_loss self); simpl; [|discriminate].
  unfold as_number. destruct p; simpl; [discriminate|].
  destruct p0; simpl; [discriminate|].
  unfold float_truediv. destruct (_ =? _)%float; simpl; discriminate.
Qed.

Lemma batch_message_no_KeyError now logs self (size : float) (lr : pyval) (key : string) :
  History.batch_message now logs self size lr <> inl (KeyError key).
Proof.
  unfold History.batch_message, format_6f, float_truediv, getattr, as_number,
    int_of_float, timedelta.
  destruct lr; simpl; [discriminate|].
  destruct (dict_get logs "train_reader_cost"); simpl;
    (destruct (dict_get logs "train_run_cost"); simpl;
     [|destruct (_ =? _)%float; simpl; [discriminate|]]);
    (destruct (History._start_time self) as [[|start]|]; simpl; try discriminate;
     destruct (Prim2SF _); simpl; try discriminate;
     destruct (_ <=? 999999999); discriminate).
Qed.

Lemma batch_update_without_optional logs self :
  History.batch_update (Spec.without_optional_keys logs) self
  = History.batch_update logs self.
Proof.
  unfold History.batch_update, dict_getitem, Spec.without_optional_keys.
  rewrite !lookup_delete_ne by discriminate. reflexivity.
Qed.

Lemma batch_message_without_optional now logs self (size : float) (lr : pyval) :
  completion_of (History.batch_message now logs self size lr) = Return ->
  completion_of (History.batch_message now (Spec.without_optional_keys logs) self size lr)
  = Return.
Proof.
  unfold History.batch_message, dict_get, Spec.without_optional_keys.
  rewrite lookup_delete_eq.
  rewrite (lookup_delete_ne _ "train_reader_cost" "train_run_cost") by discriminate.
  rewrite lookup_delete_eq.
  destruct (format_6f lr); simpl; [discriminate|].
  destruct (logs !! "train_reader_cost") as [[|reader_cost]|]; simpl;
    (destruct (logs !! "train_run_cost") as [[|batch_cost]|]; simpl; try (exact id);
     destruct (float_truediv size batch_cost); simpl; [discriminate | exact id]).
Qed.

(** C10: [on_train_begin] raises KeyError('start_time') on a record without
    that key.  [on_batch_end] on a record that lacks one of batch_size,
    loss, epoch, max_epochs, steps, lr raises the KeyError of the first of
    them that is missing and leaves the recorder as it was.  The other two
    keys are read with [get]: with the six present no KeyError is raised,
    and a call that returns also returns, with the same effect, on the
    record without train_reader_cost and train_run_cost. *)
Theorem History_required_keys_raise_KeyError now (batch : Z) logs self :
  (logs !! "start_time" = None ->
   snd (History.on_train_begin (Some logs) self) = Raise (KeyError "start_time")) /\
  (forall key, key ∈ Spec.required_batch_keys -> logs !! key = None ->
   exists missing,
     missing ∈ Spec.required_batch_keys /\ logs !! missing = None /\
     History.on_batch_end now batch (Some logs) self = (self, Raise (KeyError missing))) /\
  (forall missing, Spec.first_missing logs = Some missing ->
   History.on_batch_end now batch (Some logs) self = (self, Raise (KeyError missing))) /\
  ((forall key, key ∈ Spec.required_batch_keys -> is_Some (logs !! key)) ->
   forall key, snd (History.on_batch_end now batch (Some logs) self) <> Raise (KeyError key)) /\
  (forall self', History.on_batch_end now batch (Some logs) self = (self', Return) ->
   History.on_batch_end now batch (Some (Spec.without_optional_keys logs)) self
   = (self', Return)).
Proof.
  assert (Hfirst : forall missing, Spec.first_missing logs = Some missing ->
            History.on_batch_end now batch (Some logs) self
            = (self, Raise (KeyError missing))).
  { intros missing Hfind. unfold History.on_batch_end.
    rewrite (batch_update_missing logs self missing Hfind). reflexivity. }
  split; [|split; [|split; [exact Hfirst|split]]].
  - intros Hnone. unfold History.on_train_begin, dict_getitem. rewrite Hnone. reflexivity.
  - intros key Hin Hnone.
    destruct (some_missing_first_missing logs key Hin Hnone) as [missing Hfind].
    exists missing. destruct (first_missing_is_missing logs missing Hfind) as [Hreq Hmiss].
    split; [exact Hreq|]. split; [exact Hmiss|]. apply Hfirst, Hfind.
  - intros Hpresent key.
    assert (Hfind : Spec.first_missing logs = None).
    { destruct (Spec.first_missing logs) as [missing|] eqn:Hfind; [|reflexivity].
      destruct (first_missing_is_missing logs missing Hfind) as [Hreq Hmiss].
      destruct (Hpresent missing Hreq) as [v Hv]. congruence. }
    unfold History.on_batch_end.
    pose proof (batch_update_no_KeyError logs self key Hfind) as Hupdate.
    destruct (History.batch_update logs self) as [e|[[[size lr] average] seen]]; simpl.
    + congruence.
    + pose proof (batch_message_no_KeyError now logs
        (History.mk (History._verbose self) (History._history self)
           (History._start_time self) (Some average) (History._epoch_metrics self)
           (Some seen) (History._train_run_cost self) (History._train_reader_cost self))
        size lr key) as Hmessage.
      destruct (History.batch_message _ _ _ _ _) as [e|n]; simpl; congruence.
  - intros self'. unfold History.on_batch_end.
    rewrite batch_update_without_optional.
    destruct (History.batch_update logs self) as [e|[[[size lr] average] seen]];
      [discriminate|].
    intros Hcall. apply pair_equal_spec in Hcall as [Hstate Hcompletion].
    rewrite (batch_message_without_optional _ _ _ _ _ Hcompletion), Hstate. reflexivity.
Qed.

(** A batch record without lr, and one with the six keys and neither of the
    other two, as instances of C10. *)
Lemma History_required_keys_witness :
  let started := fst (History.on_epoch_begin 0 (Some ∅) recorder0) in
  let logs : Logs := delete "lr" (batch_record 32 0.5) in
  "lr" ∈ Spec.required_batch_keys /\
  logs !! "lr" = None /\
  History.on_batch_end 1005%float 0 (Some logs) started = (started, Raise (KeyError "lr")) /\
  snd (History.on_batch_end 1005%float 0 (Some (batch_record 32 0.5)) started) = Return.
Proof.
  cbv zeta.
  assert (Hin : "lr" ∈ Spec.required_batch_keys)
    by (unfold Spec.required_batch_keys; repeat constructor).
  assert (Hnone : (delete "lr" (batch_record 32 0.5) : Logs) !! "lr" = None)
    by apply lookup_delete_eq.
  assert (Hfind : Spec.first_missing (delete "lr" (batch_record 32 0.5)) = Some "lr")
    by (vm_compute; reflexivity).
  split; [exact Hin|]. split; [exact Hnone|]. split.
  - exact (proj1 (proj2 (proj2
      (History_required_keys_raise_KeyError 1005%float 0
         (delete "lr" (batch_record 32 0.5))
         (fst (History.on_epoch_begin 0 (Some ∅) recorder0))))) "lr" Hfind).
  - vm_compute. reflexivity.
Defined.

End HistoryKeys.

(** * More of the module *)

(** ** Forwarding and exceptions *)

Section ContainerExtras.

Context {W : Type}.

Implicit Types (callbacks : list (Callback.t W)) (w : W).

(** Forwarding to a list of callbacks is forwarding to its front part and,
    when that returns, to the rest. *)
Lemma forward_app (front rest : list (Callback.t W)) (ev : event) (logs : option Logs) w :
  CallbackContainer.forward (CallbackContainer.__init__ (front ++ rest)) ev logs w =
  match CallbackContainer.forward (CallbackContainer.__init__ front) ev logs w with
  | (w1, Return) => CallbackContainer.forward (CallbackContainer.__init__ rest) ev logs w1
  | (w1, Raise e) => (w1, Raise e)
  end.
Proof. rewrite !forward_loop. simpl. rewrite map_app. apply for_each_app. Qed.

(** X1: an exception raised by a callback's hook is not caught by the
    forwarding method: the method raises it, the callbacks later in the list
    are not called, and what the earlier callbacks and the raising one did
    to the state stays. *)
Theorem CallbackContainer_exception_ends_forwarding
    (earlier later : list (Callback.t W)) (cb : Callback.t W)
    (ev : event) (logs : option Logs) w w1 w2 (e : exn) :
  CallbackContainer.forward (CallbackContainer.__init__ earlier) ev logs w = (w1, Return) ->
  Callback.hook cb ev (Some (CallbackContainer.logs_or_empty logs)) w1 = (w2, Raise e) ->
  CallbackContainer.forward (CallbackContainer.__init__ (earlier ++ cb :: later)) ev logs w
  = (w2, Raise e).
Proof.
  intros Hearlier Hraise. rewrite forward_app, Hearlier.
  change (cb :: later) with ([cb] ++ later). rewrite forward_app.
  rewrite (forward_loop (CallbackContainer.__init__ [cb])). simpl.
  rewrite Hraise. reflexivity.
Qed.

End ContainerExtras.

(** Two counting callbacks around a broken one, as an instance of X1: the
    counter shows the first and the broken one, not the third. *)
Lemma CallbackContainer_exception_witness :
  CallbackContainer.forward (CallbackContainer.__init__ [Counter.bump]) (EpochEnd 3) None 0
    = (1, Return) /\
  Callback.hook (Counter.broken ValueError) (EpochEnd 3)
    (Some (CallbackContainer.logs_or_empty None)) 1 = (11, Raise ValueError) /\
  CallbackContainer.forward
    (CallbackContainer.__init__ ([Counter.bump] ++ Counter.broken ValueError :: [Counter.bump]))
    (EpochEnd 3) None 0
  = (11, Raise ValueError).
Proof.
  split; [reflexivity|]. split; [reflexivity|].
  exact (CallbackContainer_exception_ends_forwarding [Counter.bump] [Counter.bump]
           (Counter.broken ValueError) (EpochEnd 3) None 0 1 11 ValueError
           eq_refl eq_refl).
Defined.

Section DefaultRecord.

Context {Params : Type}.
Variable deepcopy : Params -> exn + Params.

(** X2: the hooks' default [logs=None] is no record.  Called directly with
    it, [EarlyStopping.on_epoch_end] raises AttributeError,
    [History.on_train_begin] and [History.on_batch_end] raise TypeError.
    The container passes the empty record instead, on which the monitor's
    epoch end returns and changes nothing, and the recorder's hooks raise the
    KeyError of the first key they read. *)
Theorem hooks_without_record (epoch batch : Z) (now : float)
    (w : EarlyStopping.t Params * Trainer.t Params) (self : History.t) :
  (EarlyStopping.on_epoch_end deepcopy epoch None w = (w, Raise AttributeError) /\
   CallbackContainer.forward
     (CallbackContainer.__init__ [EarlyStopping.callback deepcopy]) (EpochEnd epoch) None w
   = (w, Return)) /\
  (snd (History.on_train_begin None self) = Raise TypeError /\
   snd (CallbackContainer.forward
          (CallbackContainer.__init__ [History.callback now]) TrainBegin None self)
   = Raise (KeyError "start_time")) /\
  (History.on_batch_end now batch None self = (self, Raise TypeError) /\
   CallbackContainer.forward
     (CallbackContainer.__init__ [History.callback now]) (BatchEnd batch) None self
   = (self, Raise (KeyError "batch_size"))).
Proof.
  destruct w as [monitor trainer]. repeat split; reflexivity.
Qed.

End DefaultRecord.

(** ** More about the monitor *)

Section MonitorExtras.

Context {Params : Type}.
Variable deepcopy : Params -> exn + Params.

Implicit Types (self : EarlyStopping.t Params) (trainer : Trainer.t Params).

(** The four ways an epoch-end call can go. *)
Lemma on_epoch_end_cases (epoch : Z) (logs : option Logs) self trainer :
  let '(self', trainer', outcome) :=
    EarlyStopping.on_epoch_end deepcopy epoch logs (self, trainer) in
  (self' = self /\ trainer' = trainer) \/
  (exists l v weights,
     logs = Some l /\
     dict_get l (EarlyStopping._early_stopping_metric self) = PyFloat v /\
     improves self v = true /\
     deepcopy (Trainer._network trainer) = inr weights /\
     self' = EarlyStopping.record_improvement self weights v epoch /\
     trainer' = trainer /\ outcome = Return) \/
  (EarlyStopping._wait self + 1 < EarlyStopping._patience self /\
   self' = EarlyStopping.set_wait self (EarlyStopping._wait self + 1) /\
   trainer' = trainer /\ outcome = Return) \/
  (EarlyStopping._patience self <= EarlyStopping._wait self + 1 /\
   self' = EarlyStopping.set_stopped_epoch
             (EarlyStopping.set_wait self (EarlyStopping._wait self + 1)) epoch /\
   trainer' = EarlyStopping.set_stop_training trainer true /\ outcome = Return).
Proof.
  unfold EarlyStopping.on_epoch_end.
  destruct logs as [l|]; [|left; auto].
  destruct (dict_get l (EarlyStopping._early_stopping_metric self)) as [|v] eqn:Hget;
    [left; auto|].
  cbv zeta. rewrite (improved_flags self v).
  destruct (improves self v) eqn:Himp.
  - destruct (deepcopy (Trainer._network trainer)) as [e|weights] eqn:Hcopy; [left; auto|].
    right. left. exists l, v, weights. auto 10.
  - destruct (Z.geb_spec (EarlyStopping._wait
      (EarlyStopping.set_wait self (EarlyStopping._wait self + 1)))
      (EarlyStopping._patience (EarlyStopping.set_wait self (EarlyStopping._wait self + 1))))
      as [Hge|Hlt]; simpl in *.
    + right. right. right. auto.
    + right. right. left. auto.
Qed.

Lemma on_epoch_end_keeps_config (epoch : Z) (logs : option Logs) self trainer :
  same_config self
    (fst (fst (EarlyStopping.on_epoch_end deepcopy epoch logs (self, trainer)))).
Proof.
  pose proof (on_epoch_end_cases epoch logs self trainer) as Hcases.
  destruct (EarlyStopping.on_epoch_end deepcopy epoch logs (self, trainer))
    as [[self' trainer'] outcome]. simpl.
  destruct Hcases as [[-> _]|[(l & v & weights & _ & _ & _ & _ & -> & _)
                     |[(_ & -> & _)|(_ & -> & _)]]];
    unfold same_config; simpl; auto.
Qed.

(** X3: epochs whose record does not report the metric (the key is absent,
    or its value is None) are invisible to the monitor: a run of epoch-end
    calls ends in the same monitor, trainer and outcome as the run of only
    those calls that report it. *)
Theorem EarlyStopping_silent_epochs_are_invisible (calls : list (Z * Logs)) self trainer :
  EarlyStopping.run_epochs deepcopy calls (self, trainer) =
  EarlyStopping.run_epochs deepcopy
    (List.filter (reports_metric (EarlyStopping._early_stopping_metric self)) calls)
    (self, trainer).
Proof.
  revert self trainer. induction calls as [|call calls IH]; intros self trainer.
  - reflexivity.
  - simpl. unfold reports_metric at 1.
    destruct (dict_get (snd call) (EarlyStopping._early_stopping_metric self)) eqn:Hget.
    + rewrite run_epochs_cons. unfold EarlyStopping.on_epoch_end. rewrite Hget.
      apply IH.
    + rewrite !run_epochs_cons.
      pose proof (on_epoch_end_keeps_config (fst call) (Some (snd call)) self trainer)
        as (Hmetric & _).
      destruct (EarlyStopping.on_epoch_end deepcopy (fst call) (Some (snd call))
                  (self, trainer)) as [[self1 trainer1] [|e]]; [|reflexivity].
      simpl in Hmetric. rewrite <- Hmetric. apply IH.
Qed.

Lemma hook_keeps_monitor_invariant (is_maximize : bool) (ev : event)
    (logs : option Logs) self trainer :
  monitor_invariant is_maximize self trainer ->
  let w' := fst (Callback.hook (EarlyStopping.callback deepcopy) ev logs (self, trainer)) in
  same_config self (fst w') /\
  monitor_invariant is_maximize (fst w') (snd w') /\
  Trainer._max_epochs (snd w') = Trainer._max_epochs trainer.
Proof.
  intros (Hwait & Hnone & Hstop).
  destruct ev; unfold Callback.hook, EarlyStopping.callback;
    cbn [Callback.on_train_begin Callback.on_train_end Callback.on_epoch_begin
         Callback.on_epoch_end Callback.on_batch_begin Callback.on_batch_end
         Callback.base];
    try (unfold Callback.pass; simpl; split; [apply same_config_refl|]; split;
         [unfold monitor_invariant; auto | reflexivity]).
  - unfold EarlyStopping.on_train_end. simpl.
    split; [apply same_config_refl|]. split; [|destruct (EarlyStopping._best_weights self); reflexivity].
    unfold monitor_invariant. split; [exact Hwait|]. split; [exact Hnone|].
    intros H1 H2. destruct (EarlyStopping._best_weights self); simpl; auto.
  - pose proof (on_epoch_end_cases epoch logs self trainer) as Hcases.
    pose proof (on_epoch_end_keeps_config epoch logs self trainer) as Hcfg.
    destruct (EarlyStopping.on_epoch_end deepcopy epoch logs (self, trainer))
      as [[self' trainer'] outcome]. simpl in *.
    split; [exact Hcfg|].
    destruct Hcases as [[-> ->]|[(l & v & weights & _ & _ & _ & _ & -> & -> & _)
                       |[(Hlt & -> & -> & _)|(Hge & -> & -> & _)]]];
      unfold monitor_invariant; simpl.
    + auto.
    + split; [|reflexivity]. split; [lia|]. split; [discriminate|].
      intros H1 H2. lia.
    + split; [|reflexivity]. split; [lia|]. split; [exact Hnone|].
      intros H1 H2. lia.
    + split; [|reflexivity]. split; [lia|]. split; [exact Hnone|]. auto.
Qed.

(** X4: whatever hooks of a fresh monitor are called, with whatever records
    and whether they return or raise, the monitor keeps its configuration,
    the wait counter is never negative, the best value and best epoch are
    the initial ones (+inf or -inf, and 0) as long as no snapshot is stored,
    the trainer's [_max_epochs] is untouched, and, for a patience of at
    least 1, a wait counter that has reached patience comes with a set stop
    flag. *)
Theorem EarlyStopping_reachable_states (metric : string) (is_maximize : bool)
    (tol : float) (patience : Z) trainer (calls : list (event * option Logs)) :
  let fresh := EarlyStopping.__init__ metric is_maximize tol patience in
  let '(self, trainer') := hook_calls deepcopy calls (fresh, trainer) in
  same_config fresh self /\
  0 <= EarlyStopping._wait self /\
  (EarlyStopping._best_weights self = None ->
   EarlyStopping._best_loss self = Spec.initial_best is_maximize /\
   EarlyStopping._best_epoch self = 0) /\
  Trainer._max_epochs trainer' = Trainer._max_epochs trainer /\
  (1 <= patience -> EarlyStopping._wait self >= patience ->
   Trainer._stop_training trainer' = true).
Proof.
  intros fresh.
  assert (Hgen : forall calls self0 trainer0,
            monitor_invariant is_maximize self0 trainer0 ->
            let w := hook_calls deepcopy calls (self0, trainer0) in
            same_config self0 (fst w) /\ monitor_invariant is_maximize (fst w) (snd w) /\
            Trainer._max_epochs (snd w) = Trainer._max_epochs trainer0).
  { clear calls. induction calls as [|call calls IH]; intros self0 trainer0 Hinv.
    - simpl. split; [apply same_config_refl|]. auto.
    - unfold hook_calls. simpl. fold (hook_calls deepcopy calls).
      destruct (hook_keeps_monitor_invariant is_maximize (fst call) (snd call)
                  self0 trainer0 Hinv) as (Hcfg1 & Hinv1 & Hmax1).
      destruct (fst (Callback.hook (EarlyStopping.callback deepcopy) (fst call) (snd call)
                       (self0, trainer0))) as [self1 trainer1]. simpl in *.
      destruct (IH self1 trainer1 Hinv1) as (Hcfg & Hinv' & Hmax).
      split; [eapply same_config_trans; eassumption|].
      split; [exact Hinv'|]. rewrite <- Hmax1. exact Hmax. }
  assert (Hfresh : monitor_invariant is_maximize fresh trainer).
  { unfold monitor_invariant, fresh. simpl. split; [lia|]. split; [auto|]. lia. }
  specialize (Hgen calls fresh trainer Hfresh).
  destruct (hook_calls deepcopy calls (fresh, trainer)) as [self trainer'].
  simpl in Hgen. destruct Hgen as (Hcfg & (Hwait & Hnone & Hstop) & Hmax).
  split; [exact Hcfg|]. split; [exact Hwait|]. split; [exact Hnone|].
  split; [exact Hmax|].
  intros Hpat Hge. destruct Hcfg as (_ & _ & _ & Hp). simpl in Hp.
  apply Hstop; lia.
Qed.

(** The configuration and [_max_epochs] after any hook calls. *)
Lemma hook_calls_keep_config (metric : string) (is_maximize : bool)
    (tol : float) (patience : Z) trainer (calls : list (event * option Logs)) :
  let w := hook_calls deepcopy calls
             (EarlyStopping.__init__ metric is_maximize tol patience, trainer) in
  same_config (EarlyStopping.__init__ metric is_maximize tol patience) (fst w) /\
  Trainer._max_epochs (snd w) = Trainer._max_epochs trainer.
Proof.
  cbv zeta.
  assert (Hgen : forall calls self0 trainer0,
            let w := hook_calls deepcopy calls (self0, trainer0) in
            same_config self0 (fst w) /\
            Trainer._max_epochs (snd w) = Trainer._max_epochs trainer0).
  { clear. induction calls as [|call calls IH]; intros self0 trainer0.
    - simpl. split; [apply same_config_refl | reflexivity].
    - unfold hook_calls. simpl. fold (hook_calls deepcopy calls).
      assert (Hstep : same_config self0
                (fst (fst (Callback.hook (EarlyStopping.callback deepcopy) (fst call)
                             (snd call) (self0, trainer0)))) /\
              Trainer._max_epochs
                (snd (fst (Callback.hook (EarlyStopping.callback deepcopy) (fst call)
                             (snd call) (self0, trainer0))))
              = Trainer._max_epochs trainer0).
      { destruct (fst call); unfold Callback.hook, EarlyStopping.callback;
          cbn [Callback.on_train_begin Callback.on_train_end Callback.on_epoch_begin
               Callback.on_epoch_end Callback.on_batch_begin Callback.on_batch_end
               Callback.base];
          try (unfold Callback.pass; simpl; split; [apply same_config_refl | reflexivity]).
        - unfold EarlyStopping.on_train_end. simpl.
          split; [apply same_config_refl|].
          destruct (EarlyStopping._best_weights self0); reflexivity.
        - split; [apply on_epoch_end_keeps_config|].
          pose proof (on_epoch_end_cases epoch (snd call) self0 trainer0) as Hcases.
          destruct (EarlyStopping.on_epoch_end deepcopy epoch (snd call) (self0, trainer0))
            as [[self1 trainer1] outcome]. simpl.
          destruct Hcases as [[_ ->]|[(l & v & weights & _ & _ & _ & _ & _ & -> & _)
                             |[(_ & _ & -> & _)|(_ & _ & -> & _)]]]; reflexivity. }
      destruct Hstep as [Hcfg1 Hmax1].
      destruct (fst (Callback.hook (EarlyStopping.callback deepcopy) (fst call) (snd call)
                       (self0, trainer0))) as [self1 trainer1]. simpl in Hcfg1, Hmax1.
      destruct (IH self1 trainer1) as [Hcfg Hmax].
      split; [eapply same_config_trans; eassumption|].
      rewrite <- Hmax1. exact Hmax. }
  apply Hgen.
Qed.

End MonitorExtras.

(** ** The summary at train end *)

Section SummaryExtras.

Context {Params : Type}.
Variable deepcopy : Params -> exn + Params.

Implicit Types (self : EarlyStopping.t Params) (trainer : Trainer.t Params).

(** The messages of [on_train_end] in terms of the state before the call. *)
Lemma logged_messages (logs : option Logs) self trainer :
  Summary.logged logs (self, trainer) =
  [ if EarlyStopping._stopped_epoch self >? 0 then
      Summary.EarlyStoppingOccurred (EarlyStopping._early_stopping_metric self)
        (EarlyStopping._stopped_epoch self) (EarlyStopping._best_epoch self)
        (EarlyStopping._best_loss self)
    else
      Summary.ReachedMaxEpochs (EarlyStopping._early_stopping_metric self)
        (Trainer._max_epochs trainer) (EarlyStopping._best_epoch self)
        (EarlyStopping._best_loss self);
    Summary.BestWeightsUsed ].
Proof.
  unfold Summary.logged, EarlyStopping.on_train_end, Summary.on_train_end_messages.
  destruct (EarlyStopping._best_weights self); reflexivity.
Qed.

Lemma hook_keeps_flag_recorded (ev : event) (logs : option Logs) self trainer :
  match ev with EpochEnd epoch => 0 < epoch | _ => True end ->
  flag_is_recorded self trainer ->
  let w' := fst (Callback.hook (EarlyStopping.callback deepcopy) ev logs (self, trainer)) in
  flag_is_recorded (fst w') (snd w').
Proof.
  intros Hepoch Hflag.
  destruct ev; unfold Callback.hook, EarlyStopping.callback;
    cbn [Callback.on_train_begin Callback.on_train_end Callback.on_epoch_begin
         Callback.on_epoch_end Callback.on_batch_begin Callback.on_batch_end
         Callback.base];
    try (unfold Callback.pass; simpl; exact Hflag).
  - unfold EarlyStopping.on_train_end. simpl.
    unfold flag_is_recorded in *.
    destruct (EarlyStopping._best_weights self); simpl; exact Hflag.
  - pose proof (on_epoch_end_cases deepcopy epoch logs self trainer) as Hcases.
    destruct (EarlyStopping.on_epoch_end deepcopy epoch logs (self, trainer))
      as [[self' trainer'] outcome]. simpl.
    destruct Hcases as [[-> ->]|[(l & v & weights & _ & _ & _ & _ & -> & -> & _)
                       |[(_ & -> & -> & _)|(_ & -> & -> & _)]]];
      unfold flag_is_recorded in *; simpl; try exact Hflag.
    split; [intros _; exact Hepoch | reflexivity].
Qed.

(** X5: when the epochs are numbered from 1 and the trainer's stop flag is
    clear at the start, then after any calls of the hooks of a fresh monitor
    the flag is set exactly when a stopped epoch is recorded, so that
    [on_train_end] logs the early-stopping line exactly when the monitor has
    requested the stop, and the max-epochs line otherwise. *)
Theorem EarlyStopping_summary_agrees_with_stop_flag (metric : string)
    (is_maximize : bool) (tol : float) (patience : Z) trainer
    (calls : list (event * option Logs)) (logs : option Logs) :
  Trainer._stop_training trainer = false ->
  epochs_from_one calls ->
  let '(self, trainer') :=
    hook_calls deepcopy calls
      (EarlyStopping.__init__ metric is_maximize tol patience, trainer) in
  (Trainer._stop_training trainer' = true <-> 0 < EarlyStopping._stopped_epoch self) /\
  Summary.logged logs (self, trainer') =
  [ if Trainer._stop_training trainer' then
      Summary.EarlyStoppingOccurred metric (EarlyStopping._stopped_epoch self)
        (EarlyStopping._best_epoch self) (EarlyStopping._best_loss self)
    else
      Summary.ReachedMaxEpochs metric (Trainer._max_epochs trainer)
        (EarlyStopping._best_epoch self) (EarlyStopping._best_loss self);
    Summary.BestWeightsUsed ].
Proof.
  intros Hclear Hepochs.
  assert (Hgen : forall calls self0 trainer0,
            epochs_from_one calls -> flag_is_recorded self0 trainer0 ->
            let w := hook_calls deepcopy calls (self0, trainer0) in
            flag_is_recorded (fst w) (snd w)).
  { clear. induction calls as [|call calls IH]; intros self0 trainer0 Hepochs Hflag.
    - exact Hflag.
    - apply Forall_cons in Hepochs as [Hepoch Hepochs].
      unfold hook_calls. simpl. fold (hook_calls deepcopy calls).
      pose proof (hook_keeps_flag_recorded (fst call) (snd call) self0 trainer0
                    Hepoch Hflag) as Hflag1.
      destruct (fst (Callback.hook (EarlyStopping.callback deepcopy) (fst call) (snd call)
                       (self0, trainer0))) as [self1 trainer1].
      apply (IH self1 trainer1 Hepochs Hflag1). }
  assert (Hfresh : flag_is_recorded
                     (EarlyStopping.__init__ metric is_maximize tol patience) trainer).
  { unfold flag_is_recorded. simpl. rewrite Hclear. split; [discriminate | lia]. }
  specialize (Hgen calls _ trainer Hepochs Hfresh).
  pose proof (hook_calls_keep_config deepcopy metric is_maximize tol
                patience trainer calls) as Hreach.
  destruct (hook_calls deepcopy calls
              (EarlyStopping.__init__ metric is_maximize tol patience, trainer))
    as [self trainer'].
  simpl in Hgen. destruct Hreach as ((Hmetric & _) & Hmax). simpl in Hmetric, Hmax.
  split; [exact Hgen|].
  rewrite logged_messages, Hmetric, Hmax.
  unfold flag_is_recorded in Hgen.
  destruct (Trainer._stop_training trainer') eqn:Hstop.
  - destruct (Z.gtb_spec (EarlyStopping._stopped_epoch self) 0) as [Hgt|Hle];
      [reflexivity|]. apply proj1 in Hgen. specialize (Hgen eq_refl). lia.
  - destruct (Z.gtb_spec (EarlyStopping._stopped_epoch self) 0) as [Hgt|Hle];
      [|reflexivity]. apply proj2 in Hgen. specialize (Hgen Hgt). discriminate.
Qed.

(** X6: a stop requested at epoch 0 is not reported.  When the epoch-end
    call of epoch 0 reports a value that is no improvement and the wait
    counter reaches patience with it, the call sets the stop flag and records
    stopped epoch 0, which [on_train_end] reads as no early stop: it logs the
    max-epochs line, and the line about the best weights as always. *)
Theorem EarlyStopping_stop_at_epoch_zero_is_not_reported self trainer (logs : Logs)
    (v : float) (logs' : option Logs) :
  logs !! EarlyStopping._early_stopping_metric self = Some (PyFloat v) ->
  improves self v = false ->
  EarlyStopping._patience self <= EarlyStopping._wait self + 1 ->
  let '(self', trainer', outcome) :=
    EarlyStopping.on_epoch_end deepcopy 0 (Some logs) (self, trainer) in
  outcome = Return /\
  Trainer._stop_training trainer' = true /\
  Summary.logged logs' (self', trainer') =
  [ Summary.ReachedMaxEpochs (EarlyStopping._early_stopping_metric self)
      (Trainer._max_epochs trainer) (EarlyStopping._best_epoch self)
      (EarlyStopping._best_loss self);
    Summary.BestWeightsUsed ].
Proof.
  intros Hv Hno Hpatience.
  rewrite (on_epoch_end_present deepcopy self trainer 0 logs v Hv), Hno. cbv zeta.
  destruct (Z.geb_spec (EarlyStopping._wait
    (EarlyStopping.set_wait self (EarlyStopping._wait self + 1)))
    (EarlyStopping._patience (EarlyStopping.set_wait self (EarlyStopping._wait self + 1))))
    as [Hge|Hlt]; simpl in *; [|lia].
  split; [reflexivity|]. split; [reflexivity|].
  rewrite logged_messages. reflexivity.
Qed.

End SummaryExtras.

(** ** A monitor without a trainer, and [set_trainer] *)

Section UnboundExtras.

Context {Params : Type}.
Variable deepcopy : Params -> exn + Params.

Implicit Types (self : EarlyStopping.t Params) (trainer : Trainer.t Params).

(** With the attribute assigned, the hook is [EarlyStopping.on_epoch_end]. *)
Lemma bound_on_epoch_end (epoch : Z) (logs : option Logs) self trainer :
  Unbound.on_epoch_end deepcopy epoch logs (self, Some trainer) =
  let '(self', trainer', outcome) :=
    EarlyStopping.on_epoch_end deepcopy epoch logs (self, trainer) in
  (self', Some trainer', outcome).
Proof.
  unfold Unbound.on_epoch_end, EarlyStopping.on_epoch_end.
  destruct logs as [l|]; [|reflexivity].
  destruct (dict_get l _); [reflexivity|]. cbv zeta.
  destruct (_ || _).
  - destruct (deepcopy _); reflexivity.
  - destruct (_ >=? _); reflexivity.
Qed.

(** One call on a monitor that has no trainer. *)
Lemma unbound_on_epoch_end (epoch : Z) (logs : Logs) self :
  Unbound.on_epoch_end deepcopy epoch (Some logs) (self, None) =
  match dict_get logs (EarlyStopping._early_stopping_metric self) with
  | PyNone => (self, None, Return)
  | PyFloat v =>
    if improves self v then (self, None, Raise AttributeError)
    else
      (EarlyStopping.set_wait self (EarlyStopping._wait self + 1), None,
       if EarlyStopping._wait self + 1 >=? EarlyStopping._patience self
       then Raise AttributeError else Return)
  end.
Proof.
  unfold Unbound.on_epoch_end.
  destruct (dict_get logs _) as [|v]; [reflexivity|]. cbv zeta.
  rewrite (improved_flags self v).
  destruct (improves self v); [reflexivity|]. simpl.
  destruct (_ >=? _); reflexivity.
Qed.

Lemma unbound_run_cons call (calls : list (Z * Logs))
    (w : EarlyStopping.t Params * option (Trainer.t Params)) :
  Unbound.run_epochs deepcopy (call :: calls) w =
  match Unbound.on_epoch_end deepcopy (fst call) (Some (snd call)) w with
  | (w', Return) => Unbound.run_epochs deepcopy calls w'
  | (w', Raise e) => (w', Raise e)
  end.
Proof. reflexivity. Qed.

(** X7: a monitor whose [set_trainer] was never called only counts.  Through
    any run of epoch-end calls it stores no snapshot, keeps its best value,
    best epoch and stopped epoch, and never decreases the wait counter; the
    run either returns or ends in the AttributeError of reading
    [self._trainer], which the first improving value raises, as does the
    value with which the wait counter reaches patience.  When the run
    returns, the wait counter has grown by the number of calls that report
    the metric.  Its [on_train_end] raises AttributeError at once. *)
Theorem EarlyStopping_without_trainer_only_counts (calls : list (Z * Logs)) self
    (logs : option Logs) :
  let '(self', trainer', outcome) := Unbound.run_epochs deepcopy calls (self, None) in
  (trainer' = None /\ same_config self self') /\
  (EarlyStopping._best_weights self' = EarlyStopping._best_weights self /\
   EarlyStopping._best_loss self' = EarlyStopping._best_loss self /\
   EarlyStopping._best_epoch self' = EarlyStopping._best_epoch self /\
   EarlyStopping._stopped_epoch self' = EarlyStopping._stopped_epoch self) /\
  EarlyStopping._wait self <= EarlyStopping._wait self' /\
  (outcome = Return \/ outcome = Raise AttributeError) /\
  (outcome = Return ->
   EarlyStopping._wait self' =
   EarlyStopping._wait self
   + Z.of_nat (length (List.filter
                         (reports_metric (EarlyStopping._early_stopping_metric self))
                         calls))) /\
  Unbound.on_train_end logs (self', None) = (self', None, Raise AttributeError).
Proof.
  revert self. induction calls as [|call calls IH]; intros self.
  - simpl. split; [split; [reflexivity | apply same_config_refl]|].
    repeat split; auto; try lia.
  - rewrite unbound_run_cons. rewrite unbound_on_epoch_end.
    cbn [List.filter]. unfold reports_metric at 1.
    destruct (dict_get (snd call) (EarlyStopping._early_stopping_metric self)) as [|v].
    + apply IH.
    + destruct (improves self v).
      * simpl. split; [split; [reflexivity | apply same_config_refl]|].
        repeat split; auto; try lia; try discriminate.
      * destruct (EarlyStopping._wait self + 1 >=? EarlyStopping._patience self).
        -- simpl. split; [split; [reflexivity | unfold same_config; simpl; auto]|].
           repeat split; auto; try lia; try discriminate.
        -- specialize (IH (EarlyStopping.set_wait self (EarlyStopping._wait self + 1))).
           destruct (Unbound.run_epochs deepcopy calls
                       (EarlyStopping.set_wait self (EarlyStopping._wait self + 1), None))
             as [[self' trainer'] outcome].
           simpl in IH.
           destruct IH as ((Htr & Hcfg) & Hkeep & Hwait & Hout & Hcount & Hend).
           split; [split; [exact Htr | exact Hcfg]|].
           split; [exact Hkeep|]. split; [lia|]. split; [exact Hout|].
           split; [|exact Hend].
           intros Hret. rewrite (Hcount Hret).
           cbn [length]. lia.
Qed.

End UnboundExtras.

Section BindingExtras.

Context {Ref S : Type}.

Implicit Types (self : Binding.container Ref S) (cb : Binding.callback Ref S).

(** X8: [CallbackContainer.set_trainer] hands the model to every callback
    attached so far and keeps the callbacks and their order; [append] hands
    nothing over, so a fresh callback appended after [set_trainer] has no
    trainer until [set_trainer] is called again, which then binds them all. *)
Theorem CallbackContainer_set_trainer_binds_attached self (model : Ref) (o : S) :
  let bound := Binding.set_trainer self model in
  let extended := Binding.append bound (Binding.fresh o) in
  (Binding._trainer bound = Some model /\
   map Binding.object (Binding._callbacks bound)
     = map Binding.object (Binding._callbacks self) /\
   Forall (fun cb => Binding.callback_trainer cb = Some model) (Binding._callbacks bound)) /\
  (Binding._callbacks extended = Binding._callbacks bound ++ [Binding.fresh o] /\
   last (map Binding.callback_trainer (Binding._callbacks extended)) = Some None) /\
  Forall (fun cb => Binding.callback_trainer cb = Some model)
    (Binding._callbacks (Binding.set_trainer extended model)).
Proof.
  cbv zeta. unfold Binding.set_trainer, Binding.append. simpl.
  split; [split; [reflexivity|split]|split; [split; [reflexivity|]|]].
  - rewrite map_map. reflexivity.
  - apply Forall_forall. intros cb Hin. apply list_elem_of_fmap in Hin as (cb0 & -> & _).
    reflexivity.
  - rewrite map_app. simpl. apply last_snoc.
  - apply Forall_forall. intros cb Hin. apply list_elem_of_fmap in Hin as (cb0 & -> & _).
    reflexivity.
Qed.

End BindingExtras.

(** ** Two monitors on one trainer *)

Section SharedExtras.

Context {Params : Type}.
Variable deepcopy : Params -> exn + Params.

Implicit Types (self first second : EarlyStopping.t Params) (trainer : Trainer.t Params).

(** An epoch-end call whose copy succeeds: the flag is set when the call
    triggers, and the monitor afterwards does not depend on anything of the
    trainer but the parameter state. *)
Lemma on_epoch_end_with_copy (epoch : Z) (logs : Logs) self trainer :
  (forall p, exists q, deepcopy p = inr q) ->
  exists self',
    EarlyStopping.on_epoch_end deepcopy epoch (Some logs) (self, trainer)
    = (self',
       if triggers self logs then EarlyStopping.set_stop_training trainer true else trainer,
       Return) /\
    forall trainer2,
      Trainer._network trainer2 = Trainer._network trainer ->
      fst (fst (EarlyStopping.on_epoch_end deepcopy epoch (Some logs) (self, trainer2)))
      = self'.
Proof.
  intros Hcopy. unfold EarlyStopping.on_epoch_end, triggers.
  destruct (dict_get logs (EarlyStopping._early_stopping_metric self)) as [|v].
  - exists self. split; [reflexivity|]. reflexivity.
  - cbv zeta. rewrite (improved_flags self v).
    destruct (improves self v).
    + destruct (Hcopy (Trainer._network trainer)) as [weights Hweights].
      exists (EarlyStopping.record_improvement self weights v epoch).
      rewrite Hweights. split; [reflexivity|].
      intros trainer2 ->. rewrite Hweights. reflexivity.
    + simpl. destruct (EarlyStopping._wait self + 1 >=? EarlyStopping._patience self);
        eexists; (split; [reflexivity|]); reflexivity.
Qed.

(** X9: with two monitors attached to one trainer, the container's
    [on_train_end] returns, leaves both monitors as they are, and the trainer
    ends with the best epoch and best value of the monitor attached last;
    its parameter state is the last-attached monitor's snapshot when that
    monitor has one, else the first monitor's, else it stays. *)
Theorem shared_trainer_last_monitor_wins first second trainer (logs : option Logs) :
  let '(first', second', trainer', outcome) :=
    CallbackContainer.forward (Shared.container deepcopy) TrainEnd logs
      (first, second, trainer) in
  (outcome = Return /\ first' = first /\ second' = second) /\
  Trainer._best_epoch trainer' = EarlyStopping._best_epoch second /\
  Trainer._best_cost trainer' = EarlyStopping._best_loss second /\
  Trainer._network trainer' =
    match EarlyStopping._best_weights second, EarlyStopping._best_weights first with
    | Some weights, _ => weights
    | None, Some weights => weights
    | None, None => Trainer._network trainer
    end /\
  Trainer._stop_training trainer' = Trainer._stop_training trainer.
Proof.
  unfold Shared.container. simpl. unfold Shared.on_first, Shared.on_second. simpl.
  destruct (EarlyStopping._best_weights first), (EarlyStopping._best_weights second);
    simpl; repeat split; reflexivity.
Qed.

(** X10: with two monitors attached to one trainer and copies that succeed,
    the container's [on_epoch_end] returns, each monitor ends as it would if
    it were alone with the trainer, and the stop flag afterwards is set
    exactly when it was set before or one of the two monitors reaches its
    patience with this call. *)
Theorem shared_trainer_any_monitor_stops first second trainer (epoch : Z) (logs : Logs) :
  (forall p, exists q, deepcopy p = inr q) ->
  let '(first', second', trainer', outcome) :=
    CallbackContainer.forward (Shared.container deepcopy) (EpochEnd epoch) (Some logs)
      (first, second, trainer) in
  outcome = Return /\
  first' = fst (fst (EarlyStopping.on_epoch_end deepcopy epoch (Some logs) (first, trainer))) /\
  second' = fst (fst (EarlyStopping.on_epoch_end deepcopy epoch (Some logs) (second, trainer))) /\
  Trainer._stop_training trainer' =
    Trainer._stop_training trainer || triggers first logs || triggers second logs.
Proof.
  intros Hcopy.
  destruct (on_epoch_end_with_copy epoch logs first trainer Hcopy)
    as (first1 & Hfirst & _).
  destruct (on_epoch_end_with_copy epoch logs second
              (if triggers first logs
               then EarlyStopping.set_stop_training trainer true else trainer) Hcopy)
    as (second1 & Hsecond & Halone).
  unfold Shared.container. rewrite forward_loop.
  cbn [CallbackContainer._callbacks CallbackContainer.__init__ map
       CallbackContainer.for_each CallbackContainer.logs_or_empty
       Callback.hook Shared.within Callback.on_epoch_end EarlyStopping.callback].
  unfold Shared.on_first. cbv beta iota. rewrite Hfirst. cbv beta iota.
  unfold Shared.on_second. cbv beta iota. rewrite Hsecond. cbv beta iota.
  split; [reflexivity|].
  split; [reflexivity|].
  split.
  - symmetry. apply Halone. destruct (triggers first logs); reflexivity.
  - destruct (triggers first logs), (triggers second logs),
      (Trainer._stop_training trainer); reflexivity.
Qed.

End SharedExtras.

(** ** The parameters that are restored *)

Section TrainingExtras.

Context {Params : Type}.
Variable deepcopy : Params -> exn + Params.

Implicit Types (self : EarlyStopping.t Params) (trainer : Trainer.t Params).

Lemma dict_get_float_inv (logs : Logs) (key : string) (v : float) :
  dict_get logs key = PyFloat v -> logs !! key = Some (PyFloat v).
Proof.
  unfold dict_get. destruct (logs !! key) as [x|]; [intros ->; reflexivity | discriminate].
Qed.

Lemma epochs_with_training_snapshot (P : Params * (Z * Logs) -> Prop) (metric : string)
    (epochs : list (Params * (Z * Logs))) :
  forall self trainer,
  (forall step, step ∈ epochs -> P step) ->
  snapshot_from deepcopy P metric self ->
  snapshot_from deepcopy P metric (fst (epochs_with_training deepcopy epochs (self, trainer))).
Proof.
  induction epochs as [|[params [epoch logs]] epochs IH]; intros self trainer HP Hsnap.
  - exact Hsnap.
  - unfold epochs_with_training. cbn [fold_left fst snd].
    fold (epochs_with_training deepcopy epochs).
    pose proof (on_epoch_end_cases deepcopy epoch (Some logs) self (train params trainer))
      as Hcases.
    destruct (EarlyStopping.on_epoch_end deepcopy epoch (Some logs)
                (self, train params trainer)) as [[self1 trainer1] outcome].
    cbn [fst]. apply IH.
    + intros step Hin. apply HP. apply list_elem_of_further, Hin.
    + destruct Hsnap as [Hmetric Hsnap].
      destruct Hcases as [[-> _]|[(l & v & weights & Hl & Hget & _ & Hcopy & -> & _)
                         |[(_ & -> & _)|(_ & -> & _)]]].
      * split; assumption.
      * split; [exact Hmetric|]. simpl. intros weights0 Hw.
        exists params, logs. split; [apply HP, list_elem_of_here|].
        apply (f_equal (fun o => match o with Some l0 => l0 | None => logs end)) in Hl.
        subst l. rewrite Hmetric in Hget. apply dict_get_float_inv in Hget.
        split; [|exact Hget].
        simpl in Hcopy. rewrite Hcopy. f_equal.
        apply (f_equal (default weights)) in Hw. exact Hw.
      * split; [exact Hmetric | exact Hsnap].
      * split; [exact Hmetric | exact Hsnap].
Qed.

(** X11: the parameters that [on_train_end] restores are those of the best
    epoch, not of the last one.  When the trainer's parameter state changes
    from epoch to epoch and a fresh monitor has seen the epoch-end calls,
    any snapshot it holds is the copy of the parameter state of an epoch of
    the run whose number is the stored best epoch and whose record reported
    the stored best value; [on_train_end] makes it the trainer's state. *)
Theorem EarlyStopping_restores_parameters_of_best_epoch (metric : string)
    (is_maximize : bool) (tol : float) (patience : Z) trainer
    (epochs : list (Params * (Z * Logs))) (logs : option Logs) :
  let '(self, trainer') :=
    epochs_with_training deepcopy epochs
      (EarlyStopping.__init__ metric is_maximize tol patience, trainer) in
  forall weights,
    EarlyStopping._best_weights self = Some weights ->
    (exists params record,
       (params, (EarlyStopping._best_epoch self, record)) ∈ epochs /\
       deepcopy params = inr weights /\
       record !! metric = Some (PyFloat (EarlyStopping._best_loss self))) /\
    Trainer._network (snd (fst (EarlyStopping.on_train_end logs (self, trainer'))))
    = weights.
Proof.
  pose proof (epochs_with_training_snapshot (fun step => step ∈ epochs) metric epochs
                (EarlyStopping.__init__ metric is_maximize tol patience) trainer
                (fun step H => H)) as Hsnap.
  destruct (epochs_with_training deepcopy epochs
              (EarlyStopping.__init__ metric is_maximize tol patience, trainer))
    as [self trainer'].
  simpl in Hsnap.
  destruct Hsnap as [_ Hsnap]; [split; [reflexivity | discriminate]|].
  intros weights Hw. split; [apply Hsnap, Hw|].
  unfold EarlyStopping.on_train_end. simpl. rewrite Hw. reflexivity.
Qed.

End TrainingExtras.

(** ** More about the recorder *)

Section RecorderExtras.

Implicit Types (self : History.t) (logs : Logs) (now : float).

Lemma same_but_average_refl self : same_but_average self self.
Proof. unfold same_but_average. auto 10. Qed.

(** The two ways a batch-end call can go: nothing is assigned and the call
    raises, or the new average and count are assigned and the outcome is
    that of building the progress line. *)
Lemma on_batch_end_cases now (batch : Z) (logs : option Logs) self :
  let '(self', outcome) := History.on_batch_end now batch logs self in
  same_but_average self self' /\
  ((self' = self /\ exists e, outcome = Raise e /\
    (logs = None \/ exists l, logs = Some l /\ History.batch_update l self = inl e)) \/
   (exists l size lr average seen,
      logs = Some l /\
      History.batch_update l self = inr (size, lr, average, seen) /\
      History._epoch_loss self' = Some average /\
      History._samples_seen self' = Some seen /\
      outcome = completion_of (History.batch_message now l self' size lr))).
Proof.
  unfold History.on_batch_end.
  destruct logs as [l|].
  - destruct (History.batch_update l self) as [e|[[[size lr] average] seen]] eqn:Hupdate.
    + split; [apply same_but_average_refl|]. left. split; [reflexivity|].
      exists e. split; [reflexivity|]. right. exists l. auto.
    + split; [unfold same_but_average; simpl; auto 10|]. right.
      exists l, size, lr, average, seen. simpl. auto 10.
  - split; [apply same_but_average_refl|]. left. split; [reflexivity|].
    exists TypeError. auto.
Qed.

(** X12: of the attributes that [on_train_begin] and [on_epoch_begin]
    initialise, the recorder only ever fills the running average.  After any
    calls of the hooks of a new recorder, with whatever records and whether
    they return or raise, [_history] is unassigned or still the two empty
    lists it starts with, [_train_run_cost] and [_train_reader_cost] are
    unassigned or still 0, and [_verbose] is what the constructor was given. *)
Theorem History_never_records_history (verbose : Z)
    (calls : list (float * event * option Logs)) :
  let self := recorder_calls calls (History.__init__ verbose) in
  History._verbose self = verbose /\
  (History._history self = None \/
   History._history self = Some {[ "loss" := []; "lr" := [] ]}) /\
  (History._train_run_cost self = None \/ History._train_run_cost self = Some 0%float) /\
  (History._train_reader_cost self = None \/
   History._train_reader_cost self = Some 0%float).
Proof.
  cbv zeta.
  assert (Hgen : forall calls self0,
            (History._verbose self0 = verbose /\
             (History._history self0 = None \/
              History._history self0 = Some {[ "loss" := []; "lr" := [] ]}) /\
             (History._train_run_cost self0 = None \/
              History._train_run_cost self0 = Some 0%float) /\
             (History._train_reader_cost self0 = None \/
              History._train_reader_cost self0 = Some 0%float)) ->
            let self := recorder_calls calls self0 in
            History._verbose self = verbose /\
            (History._history self = None \/
             History._history self = Some {[ "loss" := []; "lr" := [] ]}) /\
            (History._train_run_cost self = None \/
             History._train_run_cost self = Some 0%float) /\
            (History._train_reader_cost self = None \/
             History._train_reader_cost self = Some 0%float)).
  { clear calls. induction calls as [|[[now ev] logs] calls IH]; intros self0 Hinv.
    - exact Hinv.
    - unfold recorder_calls. cbn [fold_left fst snd]. fold (recorder_calls calls).
      apply IH. destruct Hinv as (Hverbose & Hhistory & Hrun & Hreader).
      destruct ev; unfold Callback.hook, History.callback;
        cbn [Callback.on_train_begin Callback.on_train_end Callback.on_epoch_begin
             Callback.on_epoch_end Callback.on_batch_begin Callback.on_batch_end
             Callback.base];
        try (unfold Callback.pass; simpl; auto 10).
      + unfold History.on_train_begin.
        destruct logs as [l|]; [|simpl; auto 10].
        destruct (dict_getitem l "start_time"); simpl; auto 10.
      + unfold History.on_epoch_end.
        destruct (getattr (History._epoch_loss self0)); [simpl; auto|].
        destruct (getattr (History._epoch_metrics self0)); simpl; auto 10.
      + pose proof (on_batch_end_cases now batch logs self0) as Hcases.
        destruct (History.on_batch_end now batch logs self0) as [self1 outcome].
        destruct Hcases as [(Hv & Hh & _ & _ & Hr & Hrd) _]. simpl.
        rewrite Hv, Hh, Hr, Hrd. auto 10. }
  apply Hgen. simpl. auto 10.
Qed.

(** X13: a batch-end call assigns nothing but the running average and the
    count of samples seen; it either leaves the recorder as it is and
    raises, or assigns both, from the batch size and the loss that the
    record holds under batch_size and loss and from the count and the
    average stored before.  A KeyError always comes with an unchanged
    recorder; the other exceptions may also come after the assignment. *)
Theorem History_batch_end_assigns_only_the_average now (batch : Z)
    (logs : option Logs) self :
  let '(self', outcome) := History.on_batch_end now batch logs self in
  same_but_average self self' /\
  ((self' = self /\ outcome <> Return) \/
   (exists d seen epoch_loss size loss,
      logs = Some d /\
      d !! "batch_size" = Some (PyFloat size) /\
      d !! "loss" = Some (PyFloat loss) /\
      History._samples_seen self = Some seen /\
      History._epoch_loss self = Some epoch_loss /\
      History._samples_seen self' = Some (seen + size)%float /\
      History._epoch_loss self'
        = Some ((seen * epoch_loss + size * loss) / (seen + size))%float)) /\
  (forall key, outcome = Raise (KeyError key) -> self' = self).
Proof.
  pose proof (on_batch_end_cases now batch logs self) as Hcases.
  destruct (History.on_batch_end now batch logs self) as [self' outcome].
  destruct Hcases as [Hframe [(-> & e & -> & _)
                             |(l & size & lr & average & seen & -> & Hupdate & Hloss
                               & Hseen & ->)]].
  - split; [exact Hframe|]. split; [left; split; [reflexivity | discriminate]|]. auto.
  - split; [exact Hframe|].
    assert (Hnokey : forall key,
              completion_of (History.batch_message now l self' size lr)
              = Raise (KeyError key) -> self' = self).
    { intros key Hkey. exfalso.
      pose proof (batch_message_no_KeyError now l self' size lr key) as Hmessage.
      destruct (History.batch_message now l self' size lr) as [e|n];
        simpl in Hkey; [|discriminate].
      apply Hmessage. f_equal.
      apply (f_equal (fun c => match c with Raise x => x | Return => e end)) in Hkey.
      exact Hkey. }
    split; [|exact Hnokey]. clear Hnokey.
    unfold History.batch_update, dict_getitem in Hupdate.
    destruct (l !! "batch_size") as [bs|] eqn:Hsize; simpl in Hupdate; [|discriminate].
    destruct (l !! "loss") as [bl|] eqn:Hbatch_loss; simpl in Hupdate; [|discriminate].
    destruct (l !! "epoch"); simpl in Hupdate; [|discriminate].
    destruct (l !! "max_epochs"); simpl in Hupdate; [|discriminate].
    destruct (l !! "steps"); simpl in Hupdate; [|discriminate].
    destruct (l !! "lr"); simpl in Hupdate; [|discriminate].
    destruct (History._samples_seen self) as [seen0|]; simpl in Hupdate; [|discriminate].
    destruct (History._epoch_loss self) as [loss0|]; simpl in Hupdate; [|discriminate].
    destruct bs as [|b]; simpl in Hupdate; [discriminate|].
    destruct bl as [|bloss]; simpl in Hupdate; [discriminate|].
    unfold float_truediv in Hupdate.
    destruct (_ =? _)%float; simpl in Hupdate; [discriminate|].
    right. exists l, seen0, loss0, b, bloss.
    split; [reflexivity|]. split; [exact Hsize|]. split; [exact Hbatch_loss|].
    split; [reflexivity|]. split; [reflexivity|].
    apply (f_equal (fun r => match r with
                             | inr (_, _, a, s) => (a, s)
                             | inl _ => (average, seen)
                             end)) in Hupdate.
    apply pair_equal_spec in Hupdate as [<- <-].
    split; assumption.
Qed.

End RecorderExtras.

(** ** Divisions by zero and the order of the recorder's hooks *)

Section RecorderErrors.

Import Scenario.

Implicit Types (self : History.t) (logs : Logs) (now : float).

Lemma batch_update_with_cost logs self (cost : pyval) :
  History.batch_update (<[ "train_run_cost" := cost ]> logs) self
  = History.batch_update logs self.
Proof.
  unfold History.batch_update, dict_getitem.
  rewrite !lookup_insert_ne by discriminate. reflexivity.
Qed.

(** X14: a reported batch cost of zero makes the call raise after it has
    updated the average.  When a batch-end call returns on a record without
    train_run_cost, the call on the same record with a train_run_cost of 0.0
    (or -0.0) leaves the recorder in the same, updated state and raises
    ZeroDivisionError, from the samples-per-second figure of the progress
    line. *)
Theorem History_zero_batch_cost_raises_after_update now (batch : Z) logs self self'
    (cost : float) :
  logs !! "train_run_cost" = None ->
  History.on_batch_end now batch (Some logs) self = (self', Return) ->
  (cost =? 0)%float = true ->
  History.on_batch_end now batch (Some (<[ "train_run_cost" := PyFloat cost ]> logs)) self
  = (self', Raise ZeroDivisionError).
Proof.
  intros Hnone Hcall Hzero. unfold History.on_batch_end in *.
  rewrite batch_update_with_cost.
  destruct (History.batch_update logs self) as [e|[[[size lr] average] seen]];
    [discriminate|].
  apply pair_equal_spec in Hcall as [Hstate Hcompletion].
  rewrite Hstate in *. f_equal.
  unfold History.batch_message, dict_get in *.
  rewrite lookup_insert_eq.
  rewrite (lookup_insert_ne logs "train_run_cost" "train_reader_cost") by discriminate.
  rewrite Hnone in Hcompletion.
  destruct (format_6f lr); simpl in *; [discriminate|].
  unfold float_truediv. rewrite Hzero.
  destruct (logs !! "train_reader_cost") as [[|reader_cost]|]; reflexivity.
Qed.

Lemma zero_plus_zero (b : float) : (b =? 0)%float = true -> (0 + b =? 0)%float = true.
Proof.
  rewrite !FloatAxioms.eqb_spec, add_spec.
  replace (Prim2SF 0%float) with (S754_zero false) by (vm_compute; reflexivity).
  destruct (Prim2SF b) as [s|s| |s m e]; try (destruct s; discriminate); try discriminate.
  destruct s; reflexivity.
Qed.

Lemma six_keys_present logs :
  Spec.first_missing logs = None ->
  exists size loss epoch max_epochs steps lr,
    logs !! "batch_size" = Some size /\ logs !! "loss" = Some loss /\
    logs !! "epoch" = Some epoch /\ logs !! "max_epochs" = Some max_epochs /\
    logs !! "steps" = Some steps /\ logs !! "lr" = Some lr.
Proof.
  unfold Spec.first_missing, Spec.required_batch_keys. simpl.
  destruct (logs !! "batch_size"); [|discriminate].
  destruct (logs !! "loss"); [|discriminate].
  destruct (logs !! "epoch"); [|discriminate].
  destruct (logs !! "max_epochs"); [|discriminate].
  destruct (logs !! "steps"); [|discriminate].
  destruct (logs !! "lr"); [|discriminate].
  intros _. eauto 12.
Qed.

(** X15: a first batch of size zero.  Right after [on_epoch_begin], on a
    recorder that has seen [on_train_begin], a batch-end call whose record
    has the six keys, a batch size of 0.0 and a number for the loss raises
    ZeroDivisionError and leaves the recorder as it was. *)
Theorem History_empty_first_batch_raises now (epoch batch : Z) (logs0 : option Logs)
    logs self (e0 size loss : float) :
  History._epoch_loss self = Some e0 ->
  Spec.first_missing logs = None ->
  logs !! "batch_size" = Some (PyFloat size) ->
  logs !! "loss" = Some (PyFloat loss) ->
  (size =? 0)%float = true ->
  let started := fst (History.on_epoch_begin epoch logs0 self) in
  History.on_batch_end now batch (Some logs) started = (started, Raise ZeroDivisionError).
Proof.
  intros Hloss Hkeys Hsize Hl Hzero started.
  destruct (six_keys_present logs Hkeys)
    as (s & l & e & m & st & lr & Hs & Hl' & He & Hm & Hst & Hlr).
  unfold History.on_batch_end, History.batch_update, dict_getitem.
  rewrite Hsize, Hl, He, Hm, Hst, Hlr. subst started. simpl. rewrite Hloss. simpl.
  unfold float_truediv. rewrite (zero_plus_zero size Hzero). reflexivity.
Qed.

(** X16: the recorder's hooks need [on_train_begin] first.  On a recorder
    whose [_epoch_loss] has not been assigned, also after [on_epoch_begin],
    [on_epoch_end] raises AttributeError, and so does [on_batch_end] on a
    record with the six keys; both leave the recorder as it was. *)
Theorem History_needs_train_begin now (epoch batch : Z) (logs0 logs1 : option Logs)
    logs self :
  History._epoch_loss self = None ->
  Spec.first_missing logs = None ->
  let started := fst (History.on_epoch_begin epoch logs0 self) in
  History.on_epoch_end epoch logs1 self = (self, Raise AttributeError) /\
  History.on_epoch_end epoch logs1 started = (started, Raise AttributeError) /\
  History.on_batch_end now batch (Some logs) started = (started, Raise AttributeError).
Proof.
  intros Hloss Hkeys started.
  destruct (six_keys_present logs Hkeys)
    as (s & l & e & m & st & lr & Hs & Hl & He & Hm & Hst & Hlr).
  split; [unfold History.on_epoch_end; rewrite Hloss; reflexivity|].
  split; [unfold History.on_epoch_end; subst started; simpl; rewrite Hloss; reflexivity|].
  unfold History.on_batch_end, History.batch_update, dict_getitem.
  rewrite Hs, Hl, He, Hm, Hst, Hlr. subst started. simpl. rewrite Hloss. reflexivity.
Qed.

Lemma run_batches_frame now (calls : list (Z * Logs)) self :
  same_but_average self (fst (History.run_batches now calls self)).
Proof.
  revert self. induction calls as [|call calls IH]; intros self.
  - apply same_but_average_refl.
  - rewrite run_batches_cons.
    pose proof (on_batch_end_cases now (fst call) (Some (snd call)) self) as Hcases.
    destruct (History.on_batch_end now (fst call) (Some (snd call)) self)
      as [self1 [|e]]; destruct Hcases as [Hframe _].
    + specialize (IH self1). unfold same_but_average in *. intuition congruence.
    + exact Hframe.
Qed.

(** X17: a whole epoch.  After [on_epoch_begin], batch-end calls that
    return and [on_epoch_end], the call returns and the epoch's metrics are
    exactly the entry loss with the running average of the batches, as the
    recurrence of [on_batch_end] yields it in binary64; the stored average
    and the count of samples stay. *)
Theorem History_epoch_end_publishes_average now self (epoch : Z)
    (logs0 logs1 : option Logs) (calls : list (Z * Logs))
    (batches : list (float * float)) (e0 : float) :
  History._epoch_loss self = Some e0 ->
  carries calls batches ->
  snd (History.run_batches now calls (fst (History.on_epoch_begin epoch logs0 self)))
    = Return ->
  let finished :=
    fst (History.run_batches now calls (fst (History.on_epoch_begin epoch logs0 self))) in
  let '(self', outcome) := History.on_epoch_end epoch logs1 finished in
  outcome = Return /\
  History._epoch_metrics self'
    = Some {[ "loss" := snd (Spec.running_average_float (0%float, e0) batches) ]} /\
  History._epoch_loss self' = History._epoch_loss finished /\
  History._samples_seen self' = History._samples_seen finished.
Proof.
  intros Hloss Hcarries Hreturn finished.
  assert (Hrun : History.run_batches now calls
                   (fst (History.on_epoch_begin epoch logs0 self)) = (finished, Return)).
  { subst finished. rewrite <- Hreturn. apply surjective_pairing. }
  destruct (run_batches_returned now calls batches Hcarries
              (fst (History.on_epoch_begin epoch logs0 self)) finished 0%float e0
              eq_refl Hloss Hrun) as [_ Haverage].
  pose proof (run_batches_frame now calls (fst (History.on_epoch_begin epoch logs0 self)))
    as (_ & _ & _ & Hmetrics & _).
  fold finished in Hmetrics. simpl in Hmetrics.
  unfold History.on_epoch_end. rewrite Haverage, Hmetrics. simpl.
  split; [reflexivity|]. split; [|split; reflexivity].
  f_equal.
Qed.

(** A batch record that reports no cost and one that reports a cost of
    zero, as an instance of X14. *)
Lemma History_zero_batch_cost_witness :
  let started := fst (History.on_epoch_begin 0 (Some ∅) recorder0) in
  let updated := fst (History.on_batch_end 1005%float 0 (Some (batch_record 32 0.5)) started) in
  (batch_record 32 0.5 : Logs) !! "train_run_cost" = None /\
  History.on_batch_end 1005%float 0 (Some (batch_record 32 0.5)) started
    = (updated, Return) /\
  (0 =? 0)%float = true /\
  History.on_batch_end 1005%float 0
    (Some (<[ "train_run_cost" := PyFloat 0 ]> (batch_record 32 0.5))) started
  = (updated, Raise ZeroDivisionError).
Proof.
  cbv zeta.
  assert (Hnone : (batch_record 32 0.5 : Logs) !! "train_run_cost" = None)
    by (vm_compute; reflexivity).
  assert (Hcall : History.on_batch_end 1005%float 0 (Some (batch_record 32 0.5))
                    (fst (History.on_epoch_begin 0 (Some ∅) recorder0))
                  = (fst (History.on_batch_end 1005%float 0 (Some (batch_record 32 0.5))
                            (fst (History.on_epoch_begin 0 (Some ∅) recorder0))),
                     Return)).
  { apply injective_projections; [reflexivity | vm_compute; reflexivity]. }
  split; [exact Hnone|]. split; [exact Hcall|]. split; [reflexivity|].
  exact (History_zero_batch_cost_raises_after_update 1005%float 0 (batch_record 32 0.5)
           _ _ 0%float Hnone Hcall eq_refl).
Defined.

(** A first batch of no samples, as an instance of X15. *)
Lemma History_empty_first_batch_witness :
  let started := fst (History.on_epoch_begin 0 (Some ∅) recorder0) in
  History._epoch_loss recorder0 = Some 0%float /\
  Spec.first_missing (batch_record 0 0.5) = None /\
  (batch_record 0 0.5 : Logs) !! "batch_size" = Some (PyFloat 0) /\
  (batch_record 0 0.5 : Logs) !! "loss" = Some (PyFloat 0.5) /\
  (0 =? 0)%float = true /\
  History.on_batch_end 1005%float 0 (Some (batch_record 0 0.5)) started
  = (started, Raise ZeroDivisionError).
Proof.
  cbv zeta.
  assert (Hloss : History._epoch_loss recorder0 = Some 0%float)
    by (vm_compute; reflexivity).
  assert (Hkeys : Spec.first_missing (batch_record 0 0.5) = None)
    by (vm_compute; reflexivity).
  assert (Hsize : (batch_record 0 0.5 : Logs) !! "batch_size" = Some (PyFloat 0))
    by (vm_compute; reflexivity).
  assert (Hl : (batch_record 0 0.5 : Logs) !! "loss" = Some (PyFloat 0.5))
    by (vm_compute; reflexivity).
  split; [exact Hloss|]. split; [exact Hkeys|]. split; [exact Hsize|].
  split; [exact Hl|]. split; [reflexivity|].
  exact (History_empty_first_batch_raises 1005%float 0 0 (Some ∅) (batch_record 0 0.5)
           recorder0 0%float 0%float 0.5%float Hloss Hkeys Hsize Hl eq_refl).
Defined.

(** A new recorder that is sent an epoch without [on_train_begin], as an
    instance of X16. *)
Lemma History_needs_train_begin_witness :
  let started := fst (History.on_epoch_begin 0 (Some ∅) (History.__init__ 1)) in
  History._epoch_loss (History.__init__ 1) = None /\
  Spec.first_missing (batch_record 32 0.5) = None /\
  History.on_batch_end 1005%float 0 (Some (batch_record 32 0.5)) started
  = (started, Raise AttributeError).
Proof.
  cbv zeta.
  assert (Hkeys : Spec.first_missing (batch_record 32 0.5) = None)
    by (vm_compute; reflexivity).
  split; [reflexivity|]. split; [exact Hkeys|].
  exact (proj2 (proj2 (History_needs_train_begin 1005%float 0 0 (Some ∅) None
                         (batch_record 32 0.5) (History.__init__ 1) eq_refl Hkeys))).
Defined.

(** The first epoch of a recorder with two batches, as an instance of X17. *)
Lemma History_epoch_end_witness :
  let batches := [(1, 0.1); (1, 0.2)]%float in
  let started := fst (History.on_epoch_begin 0 (Some ∅) recorder0) in
  History._epoch_loss recorder0 = Some 0%float /\
  carries (batch_calls batches) batches /\
  snd (History.run_batches 1005%float (batch_calls batches) started) = Return /\
  History._epoch_metrics
    (fst (History.on_epoch_end 0 (Some ∅)
            (fst (History.run_batches 1005%float (batch_calls batches) started))))
  = Some {[ "loss" := snd (Spec.running_average_float (0%float, 0%float) batches) ]}.
Proof.
  cbv zeta.
  assert (Hloss : History._epoch_loss recorder0 = Some 0%float)
    by (vm_compute; reflexivity).
  assert (Hreturn : snd (History.run_batches 1005%float
                           (batch_calls [(1, 0.1); (1, 0.2)]%float)
                           (fst (History.on_epoch_begin 0 (Some ∅) recorder0))) = Return)
    by (vm_compute; reflexivity).
  split; [exact Hloss|]. split; [apply batch_calls_carry|]. split; [exact Hreturn|].
  pose proof (History_epoch_end_publishes_average 1005%float recorder0 0 (Some ∅) (Some ∅)
                (batch_calls [(1, 0.1); (1, 0.2)]%float) [(1, 0.1); (1, 0.2)]%float
                0%float Hloss (batch_calls_carry _) Hreturn) as H.
  cbv zeta in H.
  destruct (History.on_epoch_end 0 (Some ∅)
              (fst (History.run_batches 1005%float
                      (batch_calls [(1, 0.1); (1, 0.2)]%float)
                      (fst (History.on_epoch_begin 0 (Some ∅) recorder0)))))
    as [self' outcome].
  exact (proj1 (proj2 H)).
Defined.

End RecorderErrors.

(** ** Instances *)

Section ExtraInstances.

Import Scenario.

(** A run with epochs 1 and 2 that stops at epoch 2, as an instance of X5. *)
Lemma EarlyStopping_summary_witness :
  let calls : list (event * option Logs) :=
    [ (EpochEnd 1, Some {[ "loss" := PyFloat 1.0 ]});
      (EpochEnd 2, Some {[ "loss" := PyFloat 1.2 ]});
      (TrainEnd, None) ] in
  let w := hook_calls copy_ok calls (EarlyStopping.__init__ "loss" false 0%float 1, trainer0) in
  Trainer._stop_training trainer0 = false /\
  epochs_from_one calls /\
  (Trainer._stop_training (snd w) = true <-> 0 < EarlyStopping._stopped_epoch (fst w)).
Proof.
  cbv zeta.
  assert (Hepochs : epochs_from_one
            [ (EpochEnd 1, Some ({[ "loss" := PyFloat 1.0 ]} : Logs));
              (EpochEnd 2, Some ({[ "loss" := PyFloat 1.2 ]} : Logs));
              (TrainEnd, None) ]).
  { unfold epochs_from_one. repeat (constructor; [simpl; lia|]). constructor. }
  split; [reflexivity|]. split; [exact Hepochs|].
  pose proof (EarlyStopping_summary_agrees_with_stop_flag copy_ok "loss" false 0%float 1
                trainer0 _ None eq_refl Hepochs) as H.
  destruct (hook_calls copy_ok _ _) as [self trainer'].
  exact (proj1 H).
Defined.

(** A NaN at epoch 0 with the default patience of 1, as an instance of X6. *)
Lemma EarlyStopping_stop_at_epoch_zero_witness :
  let self := EarlyStopping.__init__ (Params := list float) "loss" false 0%float 1 in
  let logs : Logs := {[ "loss" := PyFloat nan ]} in
  logs !! EarlyStopping._early_stopping_metric self = Some (PyFloat nan) /\
  improves self nan = false /\
  EarlyStopping._patience self <= EarlyStopping._wait self + 1 /\
  Trainer._stop_training
    (snd (fst (EarlyStopping.on_epoch_end copy_ok 0 (Some logs) (self, trainer0)))) = true.
Proof.
  cbv zeta.
  assert (Hv : ({[ "loss" := PyFloat nan ]} : Logs)
               !! EarlyStopping._early_stopping_metric
                    (EarlyStopping.__init__ (Params := list float) "loss" false 0%float 1)
               = Some (PyFloat nan)) by (vm_compute; reflexivity).
  assert (Hno : improves (EarlyStopping.__init__ (Params := list float) "loss" false
                            0%float 1) nan = false) by (vm_compute; reflexivity).
  assert (Hpatience : EarlyStopping._patience
                        (EarlyStopping.__init__ (Params := list float) "loss" false
                           0%float 1)
                      <= EarlyStopping._wait
                           (EarlyStopping.__init__ (Params := list float) "loss" false
                              0%float 1) + 1) by (simpl; lia).
  split; [exact Hv|]. split; [exact Hno|]. split; [exact Hpatience|].
  pose proof (EarlyStopping_stop_at_epoch_zero_is_not_reported copy_ok _ trainer0 _ nan None
                Hv Hno Hpatience) as H.
  destruct (EarlyStopping.on_epoch_end copy_ok 0 _ _) as [[self' trainer'] outcome].
  exact (proj1 (proj2 H)).
Defined.

(** The monitors of the two scenarios on one trainer, as an instance of
    X10. *)
Lemma shared_trainer_witness :
  let logs : Logs := {[ "loss" := PyFloat 1.0; "acc" := PyFloat 0.5 ]} in
  (forall p, exists q, copy_ok p = inr q) /\
  Trainer._stop_training
    (snd (fst (CallbackContainer.forward (Shared.container copy_ok) (EpochEnd 0) (Some logs)
                 (monitor_A, monitor_B, trainer0))))
  = Trainer._stop_training trainer0 || triggers monitor_A logs || triggers monitor_B logs.
Proof.
  cbv zeta. split; [exact copy_ok_succeeds|].
  pose proof (shared_trainer_any_monitor_stops copy_ok monitor_A monitor_B trainer0 0
                {[ "loss" := PyFloat 1.0; "acc" := PyFloat 0.5 ]} copy_ok_succeeds) as H.
  destruct (CallbackContainer.forward (Shared.container copy_ok) (EpochEnd 0) _ _)
    as [[[first' second'] trainer'] outcome].
  exact (proj2 (proj2 (proj2 H))).
Defined.

End ExtraInstances.

(** ** The loss that an epoch inherits *)

Section RecorderStale.

Import Scenario.

Implicit Types (self : History.t) (logs : Logs) (now : float).

(** With a finite loss left over, the first update of an epoch computes the
    sum it computes from 0, unless the batch's own term is a zero. *)
Lemma first_update_forgets (e0 b l : float) (q0 : Q) :
  Spec.Q_of_float e0 = Some q0 ->
  (b * l =? 0)%float = false ->
  (0 * e0 + b * l)%float = (0 * 0 + b * l)%float.
Proof.
  intros Hfinite Hterm.
  destruct (stale_loss_term_is_zero e0 q0 Hfinite) as [s Hzero].
  rewrite FloatAxioms.eqb_spec in Hterm.
  apply Prim2SF_inj. rewrite !add_spec, Hzero.
  replace (Prim2SF (0 * 0)%float) with (S754_zero false) by (vm_compute; reflexivity).
  replace (Prim2SF 0%float) with (S754_zero false) in Hterm by (vm_compute; reflexivity).
  destruct (Prim2SF (b * l)%float) as [t|t| |t m e]; try reflexivity.
  destruct t; discriminate.
Qed.

(** X18: a finite loss left over from the epoch before does not reach the
    new epoch's average.  When the stored loss is finite at epoch start and
    the first batch's term size * loss is not a zero, then after
    [on_epoch_begin] and batch-end calls that return, the stored loss and
    the count of samples are those that the recurrence of [on_batch_end]
    yields from a count of 0 and a stored loss of 0, whatever the loss left
    over is. *)
Theorem History_finite_stale_loss_is_forgotten now self (epoch : Z)
    (logs0 : option Logs) (calls : list (Z * Logs)) (b l : float)
    (rest : list (float * float)) (e0 : float) (q0 : Q) :
  History._epoch_loss self = Some e0 ->
  Spec.Q_of_float e0 = Some q0 ->
  (b * l =? 0)%float = false ->
  carries calls ((b, l) :: rest) ->
  snd (History.run_batches now calls (fst (History.on_epoch_begin epoch logs0 self)))
    = Return ->
  let self' :=
    fst (History.run_batches now calls (fst (History.on_epoch_begin epoch logs0 self))) in
  History._samples_seen self'
    = Some (fst (Spec.running_average_float (0%float, 0%float) ((b, l) :: rest))) /\
  History._epoch_loss self'
    = Some (snd (Spec.running_average_float (0%float, 0%float) ((b, l) :: rest))).
Proof.
  intros Hloss Hfinite Hterm Hcarries Hreturn self'.
  assert (Hrun : History.run_batches now calls
                   (fst (History.on_epoch_begin epoch logs0 self)) = (self', Return)).
  { subst self'. rewrite <- Hreturn. apply surjective_pairing. }
  destruct (run_batches_returned now calls ((b, l) :: rest) Hcarries
              (fst (History.on_epoch_begin epoch logs0 self)) self' 0%float e0
              eq_refl Hloss Hrun) as [Hseen' Hloss'].
  assert (Hsame : Spec.running_average_float (0%float, e0) ((b, l) :: rest)
                  = Spec.running_average_float (0%float, 0%float) ((b, l) :: rest)).
  { unfold Spec.running_average_float, Spec.running_average. simpl.
    rewrite (first_update_forgets e0 b l q0 Hfinite Hterm). reflexivity. }
  rewrite <- Hsame. split; assumption.
Qed.

(** An epoch of two batches after an epoch that stored 0.5, as an instance
    of X18. *)
Lemma History_finite_stale_loss_witness :
  let half := fst (epoch_of_batches 0 [(1, 0.5)]%float recorder0) in
  let batches := [(1, 0.1); (1, 0.2)]%float in
  History._epoch_loss half = Some 0.5%float /\
  Spec.Q_of_float 0.5%float = Some (inject_Z 4503599627370496 * Qpower 2 (-53))%Q /\
  (1 * 0.1 =? 0)%float = false /\
  History._epoch_loss (fst (epoch_of_batches 1 batches half))
  = Some (snd (Spec.running_average_float (0%float, 0%float) batches)).
Proof.
  cbv zeta.
  assert (Hloss : History._epoch_loss (fst (epoch_of_batches 0 [(1, 0.5)]%float recorder0))
                  = Some 0.5%float) by (vm_compute; reflexivity).
  assert (Hfinite : Spec.Q_of_float 0.5%float
                    = Some (inject_Z 4503599627370496 * Qpower 2 (-53))%Q)
    by (vm_compute; reflexivity).
  assert (Hterm : (1 * 0.1 =? 0)%float = false) by (vm_compute; reflexivity).
  assert (Hreturn : snd (History.run_batches 1005%float
                           (batch_calls [(1, 0.1); (1, 0.2)]%float)
                           (fst (History.on_epoch_begin 1 (Some ∅)
                                   (fst (epoch_of_batches 0 [(1, 0.5)]%float recorder0)))))
                    = Return) by (vm_compute; reflexivity).
  split; [exact Hloss|]. split; [exact Hfinite|]. split; [exact Hterm|].
  exact (proj2
    (History_finite_stale_loss_is_forgotten 1005%float _ 1 (Some ∅)
       (batch_calls [(1, 0.1); (1, 0.2)]%float) 1%float 0.1%float [(1, 0.2)]%float
       0.5%float _ Hloss Hfinite Hterm (batch_calls_carry _) Hreturn)).
Defined.

(** The batch of 4 samples with loss 1 after an epoch that stored an
    infinity, as an instance of X19. *)
Lemma History_nonfinite_loss_witness :
  let first := fst (epoch_of_batches 0 [(4, 1e308)]%float recorder0) in
  let call :=
    History.on_batch_end 1005%float 0 (Some (batch_record 4 1))
      (fst (History.on_epoch_begin 1 (Some ∅) first)) in
  History._epoch_loss first = Some infinity /\
  Spec.Q_of_float infinity = None /\
  snd call = Return /\
  History._epoch_loss (fst call) = Some nan.
Proof.
  cbv zeta.
  assert (Hloss : History._epoch_loss
                    (fst (epoch_of_batches 0 [(4, 1e308)]%float recorder0))
                  = Some infinity) by (vm_compute; reflexivity).
  assert (Hnonfinite : Spec.Q_of_float infinity = None) by (vm_compute; reflexivity).
  assert (Hreturn : snd (History.on_batch_end 1005%float 0 (Some (batch_record 4 1))
                           (fst (History.on_epoch_begin 1 (Some ∅)
                                   (fst (epoch_of_batches 0 [(4, 1e308)]%float
                                           recorder0)))))
                    = Return) by (vm_compute; reflexivity).
  split; [exact Hloss|]. split; [exact Hnonfinite|]. split; [exact Hreturn|].
  apply (History_nonfinite_loss_outlives_epoch_start 1005%float _ 1 0 (Some ∅)
           (batch_record 4 1) _ infinity 4%float 1%float Hloss Hnonfinite).
  - vm_compute. reflexivity.
  - vm_compute. reflexivity.
  - apply injective_projections; [reflexivity | exact Hreturn].
Defined.

End RecorderStale.
